(** * llm-deployer: the build-request pipeline of [app.py]

    A shallow embedding of [app.py] (request handler, background build
    task, evaluator notification with exponential backoff) and the
    properties of it that the specification states.

    Python code that talks to the outside world (the language-model API,
    the source-hosting API, HTTP, [time.sleep], [print], threads) is
    embedded as a program tree whose nodes are the external calls; an
    interpreter runs a tree against any model of the outside world and
    records the calls made together with the answers received. *)

From Stdlib Require Import ZArith String Ascii DecimalString List Lia.
From Stdlib Require Import Floats.SpecFloat.
From stdpp Require Import gmap strings list.

Set Warnings "-register-all".

Open Scope string_scope.
Open Scope Z_scope.

(* ===================================================================== *)
(** ** Python values *)
(* ===================================================================== *)

(** What [request.get_json()] can return: the Python image of a JSON
    document.  A [dict] is kept as its items in insertion order. *)
Inductive value : Type :=
| VNone
| VBool (b : bool)
| VInt (z : Z)
| VFloat (f : spec_float)
| VStr (s : string)
| VList (l : list value)
| VDict (items : list (string * value)).

(** Truth value of an object, as used by [not x] and [if x:]. *)
Definition truthy (v : value) : bool :=
  match v with
  | VNone => false
  | VBool b => b
  | VInt z => negb (z =? 0)
  | VFloat (S754_zero _) => false
  | VFloat _ => true
  | VStr s => negb (String.eqb s "")
  | VList [] => false
  | VList _ => true
  | VDict [] => false
  | VDict _ => true
  end.

(** [type(v).__name__] *)
Definition type_name (v : value) : string :=
  match v with
  | VNone => "NoneType"
  | VBool _ => "bool"
  | VInt _ => "int"
  | VFloat _ => "float"
  | VStr _ => "str"
  | VList _ => "list"
  | VDict _ => "dict"
  end.

(** [d.get(key, default)] on the items of a dict. *)
Fixpoint dict_get (items : list (string * value)) (key : string)
    (default : value) : value :=
  match items with
  | [] => default
  | (k, v) :: rest => if String.eqb k key then v else dict_get rest key default
  end.

(** [v == e] where [e] is what [os.getenv] returned: [None] or a [str].
    Only [None] equals [None], and only the same [str] equals a [str]. *)
Definition eq_getenv (v : value) (e : option string) : bool :=
  match v, e with
  | VNone, None => true
  | VStr s, Some s' => String.eqb s s'
  | _, _ => false
  end.

(** [str(z)] for an int. *)
Definition str_of_int (z : Z) : string := NilZero.string_of_int (Z.to_int z).

(** The built-ins of the interpreter that are not unfolded here:
    [repr] of floats and containers and [str.strip]. *)
Class Builtins := {
  py_repr : value -> string;
  str_strip : string -> string
}.

(** [str(v)], which is also what an f-string substitutes for [{v}]. *)
Definition py_str `{Builtins} (v : value) : string :=
  match v with
  | VNone => "None"
  | VBool true => "True"
  | VBool false => "False"
  | VInt z => str_of_int z
  | VStr s => s
  | VFloat _ | VList _ | VDict _ => py_repr v
  end.

(* ===================================================================== *)
(** ** Exceptions *)
(* ===================================================================== *)

(** The nearest class, among those the program names or raises itself and
    those that [request.get_json()] raises, of an instance of
    [Exception]. *)
Inductive exn_class : Type :=
| RequestException
| GithubException
| OpenAIError
| AttributeError
| IndexError
| BadRequest
| UnsupportedMediaType
| OtherException.

Record exn : Type := Exn { exn_type : exn_class; exn_str : string }.

Definition is_RequestException (e : exn) : bool :=
  match exn_type e with RequestException => true | _ => false end.

Definition is_GithubException (e : exn) : bool :=
  match exn_type e with GithubException => true | _ => false end.

(** Every [exn] is an instance of [Exception]. *)
Definition is_Exception (e : exn) : bool := true.

(** The [code] attribute of the HTTP exceptions of Werkzeug: the status
    with which Flask answers when the view raises one. *)
Definition http_code (c : exn_class) : option Z :=
  match c with
  | BadRequest => Some 400
  | UnsupportedMediaType => Some 415
  | _ => None
  end.

(* ===================================================================== *)
(** ** External calls *)
(* ===================================================================== *)

Record openai_client : Type :=
  OpenAI_client { client_api_key : option string; client_base_url : string }.

Record gh_user : Type := Gh_user { login : string }.

Record gh_repo : Type :=
  Gh_repo { name : string; full_name : string; html_url : string }.

Record gh_branch : Type := Gh_branch { commit_sha : string }.

Inductive thread_target : Type := Target_process_build_task.

(** One constructor per call that leaves the program; the index is the
    type of what comes back.  A call that can raise answers [exn + _]. *)
Inductive event : Type -> Type :=
| Print (line : string) : event unit
| Sleep (seconds : Z) : event unit
| RequestsPost (url : value) (json : value) (timeout : Z) : event (exn + Z)
| OpenAINew (api_key : option string) (base_url : string)
    : event (exn + openai_client)
| ChatCreate (client : openai_client) (model : string)
    (messages : list (string * string)) : event (exn + list (option string))
| GetUser (token : option string) : event (exn + gh_user)
| GetRepo (user : gh_user) (repo_name : string) : event (exn + gh_repo)
| DeleteRepo (repo : gh_repo) : event (exn + unit)
| CreateRepo (user : gh_user) (repo_name : string) (private : bool)
    : event (exn + gh_repo)
| CreateFile (repo : gh_repo) (path message content : string)
    : event (exn + unit)
| GetBranch (repo : gh_repo) (branch : string) : event (exn + gh_branch)
| ThreadStart (target : thread_target) (args : list value) : event unit.

(** [RequestsPost] answers the response's [status_code]; [ChatCreate]
    answers, for each element of [response.choices], its
    [message.content] (which may be [None]). *)

(* ===================================================================== *)
(** ** Programs *)
(* ===================================================================== *)

Inductive prog (A : Type) : Type :=
| Ret (a : A)
| Vis {X : Type} (e : event X) (k : X -> prog A).

Arguments Ret {A} a.
Arguments Vis {A X} e k.

Fixpoint bind {A B : Type} (p : prog A) (f : A -> prog B) : prog B :=
  match p with
  | Ret a => f a
  | Vis e k => Vis e (fun x => bind (k x) f)
  end.

(** A Python computation: it returns a value or raises. *)
Definition M (A : Type) : Type := prog (exn + A).

Definition ret {A : Type} (a : A) : M A := Ret (inr a).
Definition raise {A : Type} (e : exn) : M A := Ret (inl e).

Definition bindE {A B : Type} (p : M A) (f : A -> M B) : M B :=
  bind p (fun r => match r with inl e => Ret (inl e) | inr a => f a end).

(** [try: body / except <catches> as e: handler e] *)
Definition try_except {A : Type} (body : M A) (catches : exn -> bool)
    (handler : exn -> M A) : M A :=
  bind body (fun r =>
    match r with
    | inl e => if catches e then handler e else Ret (inl e)
    | inr a => Ret (inr a)
    end).

(** A call that cannot raise, and one that can. *)
Definition perform {X : Type} (e : event X) : M X := Vis e (fun x => Ret (inr x)).
Definition call {X : Type} (e : event (exn + X)) : M X := Vis e Ret.

Declare Scope py_scope.
Delimit Scope py_scope with py.
Notation "x <- c ;; k" := (bindE c (fun x => k))
  (at level 100, c at next level, right associativity) : py_scope.
Notation "c ;; k" := (bindE c (fun _ => k))
  (at level 100, right associativity) : py_scope.
Open Scope py_scope.

(** [print(line)], taken not to raise: the text is one that standard
    output can encode. *)
Definition print (line : string) : M unit := perform (Print line).
Definition time_sleep (seconds : Z) : M unit := perform (Sleep seconds).

(** [v.get(key, default)]: only a dict has the method. *)
Definition py_get (v : value) (key : string) (default : value) : M value :=
  match v with
  | VDict items => ret (dict_get items key default)
  | _ => raise (Exn AttributeError
                  ("'" +:+ type_name v +:+ "' object has no attribute 'get'"))
  end.

(** [choices[0].message.content.strip()] *)
Definition first_content_stripped `{Builtins} (choices : list (option string))
    : M string :=
  match choices with
  | [] => raise (Exn IndexError "list index out of range")
  | None :: _ =>
      raise (Exn AttributeError "'NoneType' object has no attribute 'strip'")
  | Some content :: _ => ret (str_strip content)
  end.

(* ===================================================================== *)
(** ** Running a program *)
(* ===================================================================== *)

(** A call together with the answer it received. *)
Record entry : Type := Entry { answer_type : Type; made : event answer_type;
                               answer : answer_type }.
Arguments Entry {answer_type} made answer.

(** A model of the outside world: a state and the answer to each call. *)
Definition handler (W : Type) : Type := forall X : Type, event X -> W -> X * W.

Fixpoint run {W A : Type} (h : handler W) (p : prog A) (w : W)
    : A * W * list entry :=
  match p with
  | Ret a => (a, w, [])
  | Vis e k =>
      let '(x, w1) := h _ e w in
      let '(a, w2, tr) := run h (k x) w1 in
      (a, w2, Entry e x :: tr)
  end.

Definition result_of {W A : Type} (h : handler W) (p : prog A) (w : W) : A :=
  fst (fst (run h p w)).
Definition world_after {W A : Type} (h : handler W) (p : prog A) (w : W) : W :=
  snd (fst (run h p w)).
Definition trace_of {W A : Type} (h : handler W) (p : prog A) (w : W)
    : list entry :=
  snd (run h p w).

(** [holds_on_all_runs P p]: whatever the outside world answers, the calls
    made by [p] and its result satisfy [P]. *)
Fixpoint holds_on_all_runs {A : Type} (P : list entry -> A -> Prop)
    (p : prog A) : Prop :=
  match p with
  | Ret a => P [] a
  | Vis e k => forall x, holds_on_all_runs (fun tr a => P (Entry e x :: tr) a) (k x)
  end.

(* ===================================================================== *)
(** ** The program: constants *)
(* ===================================================================== *)

Definition dquote : string := String (ascii_of_nat 34) EmptyString.

Definition GITHUB_WORKFLOW_YAML : string := "
name: Deploy to GitHub Pages
on:
  push:
    branches: [ main ]
jobs:
  build-and-deploy:
    runs-on: ubuntu-latest
    steps:
      - name: Checkout 🛎️
        uses: actions/checkout@v3
      - name: Setup Pages
        uses: actions/configure-pages@v3
      - name: Upload artifact
        uses: actions/upload-pages-artifact@v2
        with:
          path: '.'
      - name: Deploy to GitHub Pages
        id: deployment
        uses: actions/deploy-pages@v2
".

Definition MIT_LICENSE : string := "
MIT License
Copyright (c) 2025 [Your Name or Username]
Permission is hereby granted, free of charge, to any person obtaining a copy
of this software and associated documentation files (the " +:+ dquote +:+ "Software" +:+ dquote +:+ "), to deal
in the Software without restriction, including without limitation the rights
to use, copy, modify, merge, publish, distribute, sublicense, and/or sell
copies of the Software, and to permit persons to whom the Software is
furnished to do so, subject to the following conditions:
The above copyright notice and this permission notice shall be included in all
copies or substantial portions of the Software.
THE SOFTWARE IS PROVIDED " +:+ dquote +:+ "AS IS" +:+ dquote +:+ ", WITHOUT WARRANTY OF ANY KIND, EXPRESS OR
IMPLIED, INCLUDING BUT NOT LIMITED TO THE WARRANTIES OF MERCHANTABILITY,
FITNESS FOR A PARTICULAR PURPOSE AND NONINFRINGEMENT. IN NO EVENT SHALL THE
AUTHORS OR COPYRIGHT HOLDERS BE LIABLE FOR ANY CLAIM, DAMAGES OR OTHER
LIABILITY, WHETHER IN AN ACTION OF CONTRACT, TORT OR OTHERWISE, ARISING FROM,
OUT OF OR IN CONNECTION WITH THE SOFTWARE OR THE USE OR OTHER DEALINGS IN THE
SOFTWARE.
".

(** The process environment, as [os.getenv] reads it. *)
Abbreviation environ := (gmap string string).

Section Program.
Context `{Builtins}.

(* ===================================================================== *)
(** ** The program: [notify_evaluator] *)
(* ===================================================================== *)

Definition max_retries : nat := 5.

(** The body of [for i in range(max_retries)], for the indices still to
    come and the current [delay]; [None] from the [try] statement means
    that control fell through to [time.sleep]. *)
Fixpoint notify_loop (url payload : value) (range : list nat) (delay : Z)
    : M bool :=
  match range with
  | [] =>
      print "❌ Could not notify evaluator after multiple retries." ;;
      ret false
  | i :: range' =>
      returned <-
        try_except
          (print ("📡 Notifying evaluator at " +:+ py_str url +:+ " (Attempt "
                  +:+ str_of_int (Z.of_nat i + 1) +:+ ")...") ;;
           status_code <- call (RequestsPost url payload 10) ;;
           if status_code =? 200 then
             print "✅ Successfully notified evaluator." ;;
             ret (Some true)
           else
             print ("⚠️ Notification failed with status "
                    +:+ str_of_int status_code +:+ ". Retrying in "
                    +:+ str_of_int delay +:+ "s...") ;;
             ret None)
          is_RequestException
          (fun e =>
             print ("❌ An error occurred during notification: " +:+ exn_str e
                    +:+ ". Retrying in " +:+ str_of_int delay +:+ "s...") ;;
             ret None) ;;
      match returned with
      | Some b => ret b
      | None =>
          time_sleep delay ;;
          notify_loop url payload range' (delay * 2)
      end
  end.

Definition notify_evaluator (url payload : value) : M bool :=
  let delay := 1 in
  notify_loop url payload (seq 0 max_retries) delay.

(* ===================================================================== *)
(** ** The program: [process_build_task] *)
(* ===================================================================== *)

Definition code_prompt (brief checks : string) : string :=
"
        You are an expert web developer. Create a single, complete index.html file.
        Brief: " +:+ brief +:+ "
        The final code must be functional and self-contained.
        The final code must pass these checks: " +:+ checks +:+ "
        Generate only the full HTML file content and nothing else.
        ".

Definition readme_prompt (brief generated_html : string) : string :=
"
        You are a technical writer. Create a professional README.md for a project.
        Project Brief: " +:+ brief +:+ "
        The project was implemented with the following code:
        ```html
        " +:+ generated_html +:+ "
        ```
        Generate a complete README.md file with the following sections:
        - A project title.
        - A brief one-paragraph summary of what the application does.
        - A " +:+ dquote +:+ "How It Works" +:+ dquote +:+ " section explaining the code's functionality.
        - A " +:+ dquote +:+ "License" +:+ dquote +:+ " section mentioning it is MIT licensed.
        Generate only the markdown content for the file.
        ".

Definition rule : string := "--------------------------------------------------".

(** The statements of the [try] block. *)
Definition build_and_deploy (env : environ) (data task_id : value) : M unit :=
  (* 1. LLM code generation *)
  client <- call (OpenAINew (env !! "OPENAI_API_KEY") "https://aipipe.org/openai/v1") ;;
  brief <- py_get data "brief" VNone ;;
  checks_value <- py_get data "checks" (VStr "") ;;
  let checks := py_str checks_value in
  code_response <-
    call (ChatCreate client "gpt-4o"
            [("user", code_prompt (py_str brief) checks)]) ;;
  generated_html <- first_content_stripped code_response ;;
  print "✅ LLM generated the HTML code." ;;
  (* LLM README.md generation *)
  readme_response <-
    call (ChatCreate client "gpt-4o"
            [("user", readme_prompt (py_str brief) generated_html)]) ;;
  generated_readme <- first_content_stripped readme_response ;;
  print "✅ LLM generated a professional README.md." ;;
  (* 2. GitHub repo creation *)
  user <- call (GetUser (env !! "GITHUB_PAT")) ;;
  let repo_name := "llm-app-" +:+ py_str task_id in
  try_except
    (old_repo <- call (GetRepo user repo_name) ;;
     call (DeleteRepo old_repo) ;;
     print ("🗑️ Deleted existing repo: " +:+ repo_name))
    is_GithubException
    (fun _ => ret tt) ;;
  repo <- call (CreateRepo user repo_name false) ;;
  print ("✅ Created new GitHub repo: " +:+ full_name repo) ;;
  call (CreateFile repo "LICENSE" "feat: add MIT license" MIT_LICENSE) ;;
  call (CreateFile repo "README.md" "docs: generate professional readme"
          generated_readme) ;;
  call (CreateFile repo "index.html" "feat: add application code"
          generated_html) ;;
  call (CreateFile repo ".github/workflows/deploy.yml"
          "ci: add GitHub Pages deployment workflow" GITHUB_WORKFLOW_YAML) ;;
  print "✅ Pushed all necessary files to the repo." ;;
  main_branch <- call (GetBranch repo "main") ;;
  let commit_sha := commit_sha main_branch in
  print ("🔑 Commit SHA: " +:+ commit_sha) ;;
  let repo_url := html_url repo in
  let pages_url :=
    "https://" +:+ login user +:+ ".github.io/" +:+ repo_name +:+ "/" in
  print ("🌐 Pages URL: " +:+ pages_url) ;;
  (* 3. Notify evaluation server *)
  evaluation_url <- py_get data "evaluation_url" VNone ;;
  if truthy evaluation_url then
    email <- py_get data "email" VNone ;;
    round <- py_get data "round" VNone ;;
    nonce <- py_get data "nonce" VNone ;;
    let payload :=
      VDict [("email", email);
             ("task", task_id);
             ("round", round);
             ("nonce", nonce);
             ("repo_url", VStr repo_url);
             ("commit_sha", VStr commit_sha);
             ("pages_url", VStr pages_url)] in
    notify_evaluator evaluation_url payload ;;
    ret tt
  else
    print "⚠️ No evaluation_url provided in the request. Skipping notification.".

Definition process_build_task (env : environ) (data : value) : M unit :=
  print rule ;;
  task_id <- py_get data "task" VNone ;;
  print ("🚀 Starting to process task: " +:+ py_str task_id) ;;
  try_except (build_and_deploy env data task_id)
    is_Exception
    (fun e => print ("❌ An error occurred: " +:+ exn_str e)) ;;
  print rule.

(* ===================================================================== *)
(** ** The program: [handle_build_request] *)
(* ===================================================================== *)

(** [jsonify(body), status] *)
Record response : Type := Response { json_body : value; status : Z }.

(** The statements of the view function that follow
    [data = request.get_json()], for the [data] that the call returned
    ([VNone] is the JSON literal [null]).  The whole view, from the
    request on, is [api_endpoint] below. *)
Definition handle_build_request (env : environ) (data : value) : M response :=
  let expected_secret := env !! "MY_APP_SECRET" in
  unauthorized <-
    (if negb (truthy data) then ret true
     else
       secret <- py_get data "secret" VNone ;;
       ret (negb (eq_getenv secret expected_secret))) ;;
  if unauthorized : bool then
    ret (Response (VDict [("error", VStr "Unauthorized")]) 403)
  else
    perform (ThreadStart Target_process_build_task [data]) ;;
    ret (Response
           (VDict [("status", VStr "Request received and is being processed.")])
           200).

(** The inbound POST as [request.get_json()] reads it: whether its content
    type announces JSON, and what [json.loads] makes of its body ([None]
    when it raises [ValueError], as it does on an empty body). *)
Record http_request : Type :=
  Http_request { is_json : bool; json_loads : option value }.

(** [request.get_json()], a call into Flask (Werkzeug 2.1 and later): it
    refuses a content type other than JSON and a body that does not
    decode, and returns the decoded value otherwise. *)
Definition get_json (request : http_request) : M value :=
  if negb (is_json request) then
    raise (Exn UnsupportedMediaType "415 Unsupported Media Type")
  else
    match json_loads request with
    | Some data => ret data
    | None => raise (Exn BadRequest "400 Bad Request")
    end.

(** The view bound to [POST /api-endpoint], from the request on:
    [data = request.get_json()], then the rest of
    [handle_build_request]. *)
Definition api_endpoint (env : environ) (request : http_request) : M response :=
  data <- get_json request ;;
  handle_build_request env data.


End Program.

(* ===================================================================== *)
(** ** Reading a record of calls *)
(* ===================================================================== *)

Definition is_post (e : entry) : bool :=
  match made e with RequestsPost _ _ _ => true | _ => false end.

(** A call to the language-model library. *)
Definition is_llm (e : entry) : bool :=
  match made e with OpenAINew _ _ | ChatCreate _ _ _ => true | _ => false end.

Definition is_create_repo (e : entry) : bool :=
  match made e with CreateRepo _ _ _ => true | _ => false end.

Definition is_create_file (e : entry) : bool :=
  match made e with CreateFile _ _ _ _ => true | _ => false end.

(** A call to the source-hosting library. *)
Definition is_github (e : entry) : bool :=
  match made e with
  | GetUser _ | GetRepo _ _ | DeleteRepo _ | CreateRepo _ _ _
  | CreateFile _ _ _ _ | GetBranch _ _ => true
  | _ => false
  end.

Definition raised_by {A B : Type} (x : A + B) : option A :=
  match x with inl a => Some a | inr _ => None end.

(** The exception that answered the call, if one did. *)
Definition error_of (e : entry) : option exn :=
  match e with
  | @Entry _ ev a =>
      match ev in event X return X -> option exn with
      | Print _ | Sleep _ | ThreadStart _ _ => fun _ => None
      | RequestsPost _ _ _ => raised_by
      | OpenAINew _ _ => raised_by
      | ChatCreate _ _ _ => raised_by
      | GetUser _ => raised_by
      | GetRepo _ _ => raised_by
      | DeleteRepo _ => raised_by
      | CreateRepo _ _ _ => raised_by
      | CreateFile _ _ _ _ => raised_by
      | GetBranch _ _ => raised_by
      end a
  end.

(** The exceptions raised by calls to the language-model library. *)
Fixpoint llm_errors (tr : list entry) : list exn :=
  match tr with
  | [] => []
  | e :: tr' =>
      match (if is_llm e then error_of e else None) with
      | Some err => err :: llm_errors tr'
      | None => llm_errors tr'
      end
  end.

(** The answer stops generation or publication: the call raised, other
    than a [GithubException] while looking up or deleting the old
    repository, or a completion has no first choice with a content. *)
Definition went_wrong (e : entry) : bool :=
  match e with
  | @Entry _ ev a =>
      match ev in event X return X -> bool with
      | Print _ | Sleep _ | ThreadStart _ _ => fun _ => false
      | RequestsPost _ _ _ => fun _ => false
      | ChatCreate _ _ _ => fun a =>
          match a with
          | inr (Some _ :: _) => false
          | _ => true
          end
      | GetRepo _ _ => fun a =>
          match a with
          | inl err => negb (is_GithubException err)
          | inr _ => false
          end
      | DeleteRepo _ => fun a =>
          match a with
          | inl err => negb (is_GithubException err)
          | inr _ => false
          end
      | OpenAINew _ _ => fun a => match a with inl _ => true | inr _ => false end
      | GetUser _ => fun a => match a with inl _ => true | inr _ => false end
      | CreateRepo _ _ _ => fun a => match a with inl _ => true | inr _ => false end
      | CreateFile _ _ _ _ => fun a => match a with inl _ => true | inr _ => false end
      | GetBranch _ _ => fun a => match a with inl _ => true | inr _ => false end
      end a
  end.

(** Number of delivery attempts. *)
Definition post_count (tr : list entry) : nat := length (List.filter is_post tr).

(** The [(url, json)] arguments of the POSTs, in order. *)
Fixpoint posted (tr : list entry) : list (value * value) :=
  match tr with
  | [] => []
  | e :: tr' =>
      match made e with
      | RequestsPost url json _ => (url, json) :: posted tr'
      | _ => posted tr'
      end
  end.

(** The arguments of the [time.sleep] calls, in order. *)
Fixpoint sleeps (tr : list entry) : list Z :=
  match tr with
  | [] => []
  | e :: tr' =>
      match made e with
      | Sleep d => d :: sleeps tr'
      | _ => sleeps tr'
      end
  end.

(** Time slept between one POST and the next: [pending] is the time slept
    since the last POST, [seen] whether there was one.  What is slept
    after the last POST is not between two attempts. *)
Fixpoint delays_from (seen : bool) (pending : Z) (tr : list entry) : list Z :=
  match tr with
  | [] => []
  | e :: tr' =>
      match made e with
      | RequestsPost _ _ _ =>
          if seen then pending :: delays_from true 0 tr'
          else delays_from true 0 tr'
      | Sleep d => delays_from seen (pending + d) tr'
      | _ => delays_from seen pending tr'
      end
  end.

Definition inter_attempt_delays (tr : list entry) : list Z :=
  delays_from false 0 tr.

(** The lines printed, in order. *)
Fixpoint printed (tr : list entry) : list string :=
  match tr with
  | [] => []
  | e :: tr' =>
      match made e with
      | Print line => line :: printed tr'
      | _ => printed tr'
      end
  end.

(** The texts generated by the language model: the content of the first
    choice of each completion that has one, in order. *)
Fixpoint generated (tr : list entry) : list string :=
  match tr with
  | [] => []
  | @Entry _ ev a :: tr' =>
      match ev in event X return X -> list string with
      | ChatCreate _ _ _ => fun a =>
          match a with
          | inr (Some content :: _) => content :: generated tr'
          | _ => generated tr'
          end
      | _ => fun _ => generated tr'
      end a
  end.

(** The repository names looked up or created, in order. *)
Fixpoint repo_names (tr : list entry) : list string :=
  match tr with
  | [] => []
  | e :: tr' =>
      match made e with
      | GetRepo _ repo_name | CreateRepo _ repo_name _ =>
          repo_name :: repo_names tr'
      | _ => repo_names tr'
      end
  end.

(** The repositories whose deletion was requested, in order. *)
Fixpoint deleted (tr : list entry) : list gh_repo :=
  match tr with
  | [] => []
  | e :: tr' =>
      match made e with
      | DeleteRepo repo => repo :: deleted tr'
      | _ => deleted tr'
      end
  end.

(** The repositories that a look-up found, in order. *)
Fixpoint found (tr : list entry) : list gh_repo :=
  match tr with
  | [] => []
  | @Entry _ ev a :: tr' =>
      match ev in event X return X -> list gh_repo with
      | GetRepo _ _ => fun a =>
          match a with
          | inr repo => repo :: found tr'
          | inl _ => found tr'
          end
      | _ => fun _ => found tr'
      end a
  end.

(** The calls to the source-hosting library, in order. *)
Definition github_calls (tr : list entry) : list entry := List.filter is_github tr.

(** What follows the first repository creation that succeeded. *)
Fixpoint after_create (tr : list entry) : option (gh_repo * list entry) :=
  match tr with
  | [] => None
  | @Entry _ ev a :: tr' =>
      match ev in event X return X -> option (gh_repo * list entry) with
      | CreateRepo _ _ _ => fun a =>
          match a with
          | inr repo => Some (repo, tr')
          | inl _ => after_create tr'
          end
      | _ => fun _ => after_create tr'
      end a
  end.

(* ===================================================================== *)
(** ** A reference model of the outside world *)
(* ===================================================================== *)

(** A hosted repository: its files in commit order and the messages of
    its commits, newest first. *)
Record repository : Type :=
  Repository { files : list (string * string); log : list string }.

(** The language model and the evaluator answer by script (the n-th
    request gets the n-th answer); the hosting account is a finite map
    from repository names to repositories. *)
Record World : Type := {
  openai : nat -> exn + list (option string);
  completions : nat;
  evaluator : nat -> exn + Z;
  posts : nat;
  account : string;
  repos : gmap string repository;
  head_sha : repository -> string;
  threads : list (thread_target * list value)
}.

Definition set_completions (n : nat) (w : World) : World :=
  {| openai := openai w; completions := n; evaluator := evaluator w;
     posts := posts w; account := account w; repos := repos w;
     head_sha := head_sha w; threads := threads w |}.

Definition set_posts (n : nat) (w : World) : World :=
  {| openai := openai w; completions := completions w;
     evaluator := evaluator w; posts := n; account := account w;
     repos := repos w; head_sha := head_sha w; threads := threads w |}.

Definition set_repos (m : gmap string repository) (w : World) : World :=
  {| openai := openai w; completions := completions w;
     evaluator := evaluator w; posts := posts w; account := account w;
     repos := m; head_sha := head_sha w; threads := threads w |}.

Definition set_threads (l : list (thread_target * list value)) (w : World)
    : World :=
  {| openai := openai w; completions := completions w;
     evaluator := evaluator w; posts := posts w; account := account w;
     repos := repos w; head_sha := head_sha w; threads := l |}.

Definition repo_handle (owner repo_name : string) : gh_repo :=
  Gh_repo repo_name (owner +:+ "/" +:+ repo_name)
    ("https://github.com/" +:+ owner +:+ "/" +:+ repo_name).

Definition not_found : exn := Exn GithubException "404 Not Found".
Definition already_exists : exn := Exn GithubException "422 Unprocessable Entity".

Definition has_path (path : string) (fs : list (string * string)) : bool :=
  existsb (fun f => String.eqb (fst f) path) fs.

Definition world_step : handler World := fun X e w =>
  match e in event X return X * World with
  | Print _ => (tt, w)
  | Sleep _ => (tt, w)
  | RequestsPost _ _ _ => (evaluator w (posts w), set_posts (S (posts w)) w)
  | OpenAINew api_key base_url =>
      match api_key with
      | Some _ => (inr (OpenAI_client api_key base_url), w)
      | None => (inl (Exn OpenAIError "The api_key client option must be set"), w)
      end
  | ChatCreate _ _ _ =>
      (openai w (completions w), set_completions (S (completions w)) w)
  | GetUser token =>
      match token with
      | Some _ => (inr (Gh_user (account w)), w)
      | None => (inl (Exn GithubException "401 Requires authentication"), w)
      end
  | GetRepo user repo_name =>
      match repos w !! repo_name with
      | Some _ => (inr (repo_handle (login user) repo_name), w)
      | None => (inl not_found, w)
      end
  | DeleteRepo repo =>
      match repos w !! name repo with
      | Some _ => (inr tt, set_repos (delete (name repo) (repos w)) w)
      | None => (inl not_found, w)
      end
  | CreateRepo user repo_name _ =>
      match repos w !! repo_name with
      | Some _ => (inl already_exists, w)
      | None =>
          (inr (repo_handle (login user) repo_name),
           set_repos (<[repo_name := Repository [] []]> (repos w)) w)
      end
  | CreateFile repo path message content =>
      match repos w !! name repo with
      | Some r =>
          if has_path path (files r) then (inl already_exists, w)
          else
            (inr tt,
             set_repos
               (<[name repo :=
                    Repository (files r ++ [(path, content)]) (message :: log r)]>
                  (repos w)) w)
      | None => (inl not_found, w)
      end
  | GetBranch repo branch =>
      match repos w !! name repo with
      | Some r =>
          match log r with
          | [] => (inl not_found, w)
          | _ :: _ =>
              if String.eqb branch "main" then (inr (Gh_branch (head_sha w r)), w)
              else (inl not_found, w)
          end
      | None => (inl not_found, w)
      end
  | ThreadStart target args =>
      (tt, set_threads (threads w ++ [(target, args)]) w)
  end.

(* ===================================================================== *)
(** ** Notions used in the statements *)
(* ===================================================================== *)

(** [ends_with Q p w]: run from [w] in the reference model, [p] ends with
    a result and a world that satisfy [Q]. *)
Fixpoint ends_with {A : Type} (Q : A -> World -> Prop) (p : prog A) (w : World)
    : Prop :=
  match p with
  | Ret a => Q a w
  | Vis e k =>
      ends_with Q (k (fst (world_step _ e w))) (snd (world_step _ e w))
  end.

Definition unauthorized_response : response :=
  Response (VDict [("error", VStr "Unauthorized")]) 403.

Definition received_response : response :=
  Response (VDict [("status", VStr "Request received and is being processed.")])
    200.

(** The check of [handle_build_request] on a body that is a dict. *)
Definition secret_accepted (env : environ) (items : list (string * value))
    : bool :=
  truthy (VDict items)
  && eq_getenv (dict_get items "secret" VNone) (env !! "MY_APP_SECRET").

(** The attempt is one that [notify_evaluator] retries: a status other
    than 200, or a transport-level error. *)
Definition attempt_fails (a : exn + Z) : bool :=
  match a with
  | inr status_code => negb (status_code =? 200)
  | inl err => is_RequestException err
  end.

(** The attempt is one on which [notify_evaluator] returns [True]. *)
Definition got_200 (a : exn + Z) : bool :=
  match a with
  | inr status_code => status_code =? 200
  | inl _ => false
  end.

(** The evaluator answered, or could not be reached. *)
Definition status_or_transport_error (a : exn + Z) : bool :=
  match a with
  | inr _ => true
  | inl err => is_RequestException err
  end.

(** What the evaluator answers to the next [n] POSTs. *)
Definition next_answers (w : World) (n : nat) : list (exn + Z) :=
  map (fun j => evaluator w (posts w + j)%nat) (seq 0 n).

(** The position of the first 200 among the answers, counting from 1, or
    the number of answers when there is none. *)
Fixpoint attempts_needed (answers : list (exn + Z)) : nat :=
  match answers with
  | [] => 0
  | a :: rest => if got_200 a then 1 else S (attempts_needed rest)
  end.

(** The delays of [n] consecutive retries, the first after [delay]. *)
Fixpoint backoff (delay : Z) (n : nat) : list Z :=
  match n with
  | O => []
  | S n' => delay :: backoff (delay * 2) n'
  end.

(** A call that [notify_evaluator url payload] can make. *)
Definition notify_entry (url payload : value) (e : entry) : Prop :=
  match made e with
  | Print _ | Sleep _ => True
  | RequestsPost u p _ => u = url /\ p = payload
  | _ => False
  end.

(** The payload sent to the evaluator. *)
Definition notification `{Builtins} (items : list (string * value)) (user : gh_user)
    (repo : gh_repo) (branch : gh_branch) : value :=
  VDict
    [("email", dict_get items "email" VNone);
     ("task", dict_get items "task" VNone);
     ("round", dict_get items "round" VNone);
     ("nonce", dict_get items "nonce" VNone);
     ("repo_url", VStr (html_url repo));
     ("commit_sha", VStr (commit_sha branch));
     ("pages_url",
      VStr ("https://" +:+ login user +:+ ".github.io/"
            +:+ ("llm-app-" +:+ py_str (dict_get items "task" VNone)) +:+ "/"))].

(** The repository that a run of the task leaves behind. *)
Definition published `{Builtins} (code readme : string) : repository :=
  Repository
    [("LICENSE", MIT_LICENSE);
     ("README.md", str_strip readme);
     ("index.html", str_strip code);
     (".github/workflows/deploy.yml", GITHUB_WORKFLOW_YAML)]
    ["ci: add GitHub Pages deployment workflow";
     "feat: add application code";
     "docs: generate professional readme";
     "feat: add MIT license"].

(* ===================================================================== *)
(** ** Further readers of a record of calls *)
(* ===================================================================== *)

(** What [f] reads off the calls on which it reads something, in order. *)
Fixpoint collect {A : Type} (f : entry -> option A) (tr : list entry) : list A :=
  match tr with
  | [] => []
  | e :: tr' =>
      match f e with
      | Some a => a :: collect f tr'
      | None => collect f tr'
      end
  end.

(** The arguments of the client constructions: API key and base URL. *)
Definition clients (tr : list entry) : list (option string * string) :=
  collect (fun e =>
             match made e with
             | OpenAINew api_key base_url => Some (api_key, base_url)
             | _ => None
             end) tr.

(** The completion requests: model and messages. *)
Definition chat_requests (tr : list entry)
    : list (string * list (string * string)) :=
  collect (fun e =>
             match made e with
             | ChatCreate _ model messages => Some (model, messages)
             | _ => None
             end) tr.

(** The repository creations requested: owner, name and [private]. *)
Definition created (tr : list entry) : list (gh_user * string * bool) :=
  collect (fun e =>
             match made e with
             | CreateRepo user repo_name private => Some (user, repo_name, private)
             | _ => None
             end) tr.

(** The paths of the commits requested. *)
Definition committed (tr : list entry) : list string :=
  collect (fun e =>
             match made e with
             | CreateFile _ path _ _ => Some path
             | _ => None
             end) tr.

(** The threads started: target and arguments. *)
Definition started (tr : list entry) : list (thread_target * list value) :=
  collect (fun e =>
             match made e with
             | ThreadStart target args => Some (target, args)
             | _ => None
             end) tr.

(** The per-attempt timeouts given to [requests.post]. *)
Definition timeouts (tr : list entry) : list Z :=
  collect (fun e =>
             match made e with
             | RequestsPost _ _ timeout => Some timeout
             | _ => None
             end) tr.

(** The answers to the POSTs, in order. *)
Definition post_answers (tr : list entry) : list (exn + Z) :=
  collect (fun e =>
             match e with
             | @Entry _ ev a =>
                 match ev in event X return X -> option (exn + Z) with
                 | RequestsPost _ _ _ => fun a => Some a
                 | _ => fun _ => None
                 end a
             end) tr.

(** A call of the generation step, or one that precedes the creation of
    the repository. *)
Definition is_preparation (e : entry) : bool :=
  match made e with
  | OpenAINew _ _ | ChatCreate _ _ _ | GetUser _ | GetRepo _ _ | DeleteRepo _ =>
      true
  | _ => false
  end.

(** A call to the language-model library raised, or a completion has no
    first choice with a content. *)
Definition generation_failed (tr : list entry) : bool :=
  existsb (fun e => is_llm e && went_wrong e) tr.

(** What a run of the loop over [n] indices from [delay] can look like:
    the answers received, the result and the time slept. *)
Definition loop_outcome (n : nat) (delay : Z) (tr : list entry)
    (r : exn + bool) : Prop :=
  match r with
  | inr false =>
      length (post_answers tr) = n /\
      forallb attempt_fails (post_answers tr) = true /\
      sleeps tr = backoff delay n
  | inr true =>
      exists failed,
        post_answers tr = (failed ++ [inr 200])%list /\
        forallb attempt_fails failed = true /\
        (length failed < n)%nat /\
        sleeps tr = backoff delay (length failed)
  | inl err =>
      exists failed,
        post_answers tr = (failed ++ [inl err])%list /\
        is_RequestException err = false /\
        forallb attempt_fails failed = true /\
        (length failed < n)%nat /\
        sleeps tr = backoff delay (length failed)
  end.

(* ===================================================================== *)
(** ** A concrete scenario *)
(* ===================================================================== *)

(** Stand-ins for the built-ins, enough to run the program. *)
Definition demo_builtins : Builtins :=
  {| py_repr := fun _ => "<object>"; str_strip := fun s => s |}.

Definition demo_env : environ :=
  <["MY_APP_SECRET" := "S"]>
    (<["OPENAI_API_KEY" := "sk-demo"]> (<["GITHUB_PAT" := "ghp-demo"]> ∅)).

Definition demo_request : list (string * value) :=
  [("secret", VStr "S"); ("task", VStr "42"); ("brief", VStr "a todo app");
   ("checks", VStr "has a button");
   ("evaluation_url", VStr "https://eval.example/cb")].

(** The same request without [evaluation_url]. *)
Definition demo_request_silent : list (string * value) :=
  [("secret", VStr "S"); ("task", VStr "42"); ("brief", VStr "a todo app");
   ("checks", VStr "has a button")].

(** An account without repositories, a language model that answers
    every request, and an evaluator that answers by [script]. *)
Definition demo_world (script : nat -> exn + Z) : World :=
  {| openai := fun i => inr [Some (if Nat.even i then "<html></html>" else "# App")];
     completions := 0;
     evaluator := script;
     posts := 0;
     account := "alice";
     repos := ∅;
     head_sha := fun r => str_of_int (Z.of_nat (length (log r)));
     threads := [] |}.

Definition always_200 : nat -> exn + Z := fun _ => inr 200.
Definition always_500 : nat -> exn + Z := fun _ => inr 500.

(** Unreachable, then 503, then 200. *)
Definition third_time_lucky : nat -> exn + Z := fun i =>
  match i with
  | O => inl (Exn RequestException "Connection refused")
  | S O => inr 503
  | _ => inr 200
  end.

(** The language model is down. *)
Definition demo_world_llm_down : World :=
  {| openai := fun _ => inl (Exn OpenAIError "Connection error.");
     completions := 0;
     evaluator := fun _ => inr 200;
     posts := 0;
     account := "alice";
     repos := ∅;
     head_sha := fun r => str_of_int (Z.of_nat (length (log r)));
     threads := [] |}.

(** 500, then an error that is not a transport-level one. *)
Definition second_time_crash : nat -> exn + Z := fun i =>
  match i with
  | O => inr 500
  | _ => inl (Exn OtherException "boom")
  end.

(** The language model answers without any choice. *)
Definition demo_world_no_choice : World :=
  {| openai := fun _ => inr [];
     completions := 0;
     evaluator := fun _ => inr 200;
     posts := 0;
     account := "alice";
     repos := ∅;
     head_sha := fun r => str_of_int (Z.of_nat (length (log r)));
     threads := [] |}.

(* ===================================================================== *)
(** ** Properties of the interpreter *)
(* ===================================================================== *)

Lemma holds_on_all_runs_sound {A : Type} (p : prog A) :
  forall (P : list entry -> A -> Prop),
    holds_on_all_runs P p ->
    forall (W : Type) (h : handler W) (w : W),
      P (trace_of h p w) (result_of h p w).
Proof.
  unfold trace_of, result_of.
  induction p as [a | X e k IH]; intros P HP W h w; simpl in *.
  - exact HP.
  - destruct (h X e w) as [x w1].
    specialize (IH x _ (HP x) W h w1).
    destruct (run h (k x) w1) as [[a w2] tr]. exact IH.
Qed.

Lemma holds_on_all_runs_weaken {A : Type} (p : prog A) :
  forall (P Q : list entry -> A -> Prop),
    (forall tr a, P tr a -> Q tr a) ->
    holds_on_all_runs P p -> holds_on_all_runs Q p.
Proof.
  induction p as [a | X e k IH]; intros P Q HPQ HP; simpl in *.
  - auto.
  - intros x. eapply IH; [| apply HP]. intros tr a. apply HPQ.
Qed.

Lemma holds_on_all_runs_bind {A B : Type} (p : prog A) (f : A -> prog B) :
  forall (P : list entry -> B -> Prop),
    holds_on_all_runs
      (fun tr1 a => holds_on_all_runs (fun tr2 b => P (tr1 ++ tr2)%list b) (f a)) p ->
    holds_on_all_runs P (bind p f).
Proof.
  induction p as [a | X e k IH]; intros P HP; simpl in *.
  - exact HP.
  - intros x. apply IH. apply HP.
Qed.

Lemma run_Vis {W A X : Type} (h : handler W) (e : event X) (k : X -> prog A)
    (w : W) :
  result_of h (Vis e k) w = result_of h (k (fst (h X e w))) (snd (h X e w)) /\
  world_after h (Vis e k) w = world_after h (k (fst (h X e w))) (snd (h X e w)) /\
  trace_of h (Vis e k) w =
    Entry e (fst (h X e w)) :: trace_of h (k (fst (h X e w))) (snd (h X e w)).
Proof.
  unfold result_of, world_after, trace_of. simpl.
  destruct (h X e w) as [x w1]. simpl.
  destruct (run h (k x) w1) as [[a w2] tr]. auto.
Qed.

(* ===================================================================== *)
(** ** The request handler *)
(* ===================================================================== *)

Lemma handle_build_request_None (env : environ) (W : Type) (h : handler W)
    (w : W) :
  run h (handle_build_request env VNone) w = (inr unauthorized_response, w, []).
Proof. reflexivity. Qed.

Lemma handle_build_request_dict (env : environ) (items : list (string * value))
    (W : Type) (h : handler W) (w : W) :
  run h (handle_build_request env (VDict items)) w =
    if secret_accepted env items then
      (inr received_response,
       snd (h _ (ThreadStart Target_process_build_task [VDict items]) w),
       [Entry (ThreadStart Target_process_build_task [VDict items]) tt])
    else (inr unauthorized_response, w, []).
Proof.
  unfold secret_accepted, handle_build_request.
  destruct items as [| item items]; [reflexivity |].
  cbn [truthy negb andb py_get bindE bind ret].
  destruct (eq_getenv _ _); cbn; [| reflexivity].
  destruct (h _ _ w) as [[] w1]. reflexivity.
Qed.

(** A body that is neither absent nor a dict: when it is falsy the
    request is refused, otherwise the look-up of [get] raises. *)
Lemma handle_build_request_other (env : environ) (data : value) (W : Type)
    (h : handler W) (w : W) :
  data <> VNone -> (forall items, data <> VDict items) ->
  run h (handle_build_request env data) w =
    if truthy data then
      (inl (Exn AttributeError
              ("'" +:+ type_name data +:+ "' object has no attribute 'get'")),
       w, [])
    else (inr unauthorized_response, w, []).
Proof.
  intros Hnone Hdict. unfold handle_build_request.
  destruct data as [| [] | z | [] | s | [] | items];
    try congruence; try (exfalso; eapply Hdict; reflexivity);
    cbn [truthy negb];
    try match goal with |- context [negb ?c] => destruct c end;
    reflexivity.
Qed.


(** The check on what [request.get_json()] returned: the JSON literal
    [null], or an object whose [secret] field does not equal the
    configured expected secret, is answered with status 403 and body
    [{"error": "Unauthorized"}], without any call. *)
Lemma handle_build_request_unauthorized (env : environ) (data : value)
    (W : Type) (h : handler W) (w : W) :
  data = VNone \/
  (exists items, data = VDict items /\
     eq_getenv (dict_get items "secret" VNone) (env !! "MY_APP_SECRET") = false) ->
  run h (handle_build_request env data) w =
    (inr (Response (VDict [("error", VStr "Unauthorized")]) 403), w, []).
Proof.
  intros [-> | (items & -> & Hsecret)].
  - apply handle_build_request_None.
  - rewrite handle_build_request_dict. unfold secret_accepted.
    rewrite Hsecret, andb_false_r. reflexivity.
Qed.

(** The check on what [request.get_json()] returned, when that is the
    JSON literal [null] or an object: the answer has status 200 or 403;
    an object that passes the secret validation is answered with status
    200 and body [{"status": "Request received and is being processed."}],
    and the only call made is the start of the background thread. *)
Lemma handle_build_request_accepted (env : environ) (data : value)
    (W : Type) (h : handler W) (w : W) :
  data = VNone \/ (exists items, data = VDict items) ->
  exists r : response,
    result_of h (handle_build_request env data) w = inr r /\
    (status r = 200 \/ status r = 403) /\
    (forall items, data = VDict items -> secret_accepted env items = true ->
       r = Response
             (VDict [("status", VStr "Request received and is being processed.")])
             200 /\
       trace_of h (handle_build_request env data) w =
         [Entry (ThreadStart Target_process_build_task [data]) tt] /\
       world_after h (handle_build_request env data) w =
         snd (h _ (ThreadStart Target_process_build_task [data]) w)).
Proof.
  unfold result_of, trace_of, world_after.
  intros [-> | (items & ->)].
  - rewrite handle_build_request_None. exists unauthorized_response.
    split; [reflexivity |]. split; [right; reflexivity |].
    intros items Hdict. discriminate Hdict.
  - rewrite handle_build_request_dict.
    destruct (secret_accepted env items) eqn:Hok.
    + exists received_response. split; [reflexivity |].
      split; [left; reflexivity |].
      intros items' Hdict _. injection Hdict as <-. auto.
    + exists unauthorized_response. split; [reflexivity |].
      split; [right; reflexivity |].
      intros items' Hdict Hok'. injection Hdict as <-. congruence.
Qed.

(** The view on a request: [request.get_json()] raises on a content type
    other than JSON and on a body that does not decode; otherwise the
    view goes on with the decoded value. *)
Lemma api_endpoint_run (env : environ) (request : http_request) (W : Type)
    (h : handler W) (w : W) :
  run h (api_endpoint env request) w =
    if is_json request then
      match json_loads request with
      | Some data => run h (handle_build_request env data) w
      | None => (inl (Exn BadRequest "400 Bad Request"), w, [])
      end
    else (inl (Exn UnsupportedMediaType "415 Unsupported Media Type"), w, []).
Proof.
  destruct request as [[] [data |]]; reflexivity.
Qed.

(** C1, as the code has it.  A request whose JSON body is the literal
    [null], or an object whose [secret] field does not equal the
    configured expected secret, is answered with status 403 and body
    [{"error": "Unauthorized"}].  A request whose body is absent or does
    not decode never reaches the check: [request.get_json()] raises
    ([UnsupportedMediaType], 415, for a content type other than JSON,
    [BadRequest], 400, for a body that does not decode) and the view
    returns no response.  In all these cases the view makes no call at
    all: it starts no background thread and does no generation,
    publication or notification. *)
Theorem api_endpoint_unauthorized (env : environ) (request : http_request)
    (W : Type) (h : handler W) (w : W) :
  (is_json request = true ->
   (json_loads request = Some VNone \/
    exists items,
      json_loads request = Some (VDict items) /\
      eq_getenv (dict_get items "secret" VNone) (env !! "MY_APP_SECRET") = false) ->
   run h (api_endpoint env request) w =
     (inr (Response (VDict [("error", VStr "Unauthorized")]) 403), w, [])) /\
  (is_json request = false \/ json_loads request = None ->
   exists err code,
     run h (api_endpoint env request) w = (inl err, w, []) /\
     http_code (exn_type err) = Some code /\ (code = 415 \/ code = 400)).
Proof.
  rewrite api_endpoint_run. split.
  - intros -> [-> | (items & -> & Hsecret)];
      apply handle_build_request_unauthorized; eauto.
  - intros [-> | Hloads].
    + exists (Exn UnsupportedMediaType "415 Unsupported Media Type"), 415. auto.
    + destruct (is_json request).
      * rewrite Hloads.
        exists (Exn BadRequest "400 Bad Request"), 400. auto.
      * exists (Exn UnsupportedMediaType "415 Unsupported Media Type"), 415.
        auto.
Qed.

Lemma api_endpoint_unauthorized_witness :
  run world_step
    (api_endpoint demo_env
       (Http_request true (Some (VDict [("secret", VStr "guess")]))))
    (demo_world always_200) =
    (inr (Response (VDict [("error", VStr "Unauthorized")]) 403),
     demo_world always_200, []) /\
  run world_step (api_endpoint demo_env (Http_request true (Some VNone)))
    (demo_world always_200) =
    (inr (Response (VDict [("error", VStr "Unauthorized")]) 403),
     demo_world always_200, []) /\
  exists err code,
    run world_step (api_endpoint demo_env (Http_request false None))
      (demo_world always_200) = (inl err, demo_world always_200, []) /\
    http_code (exn_type err) = Some code /\ (code = 415 \/ code = 400).
Proof.
  split; [| split].
  - apply (api_endpoint_unauthorized demo_env
             (Http_request true (Some (VDict [("secret", VStr "guess")])))
             World world_step (demo_world always_200)); [reflexivity |].
    right. exists [("secret", VStr "guess")].
    split; [reflexivity | vm_compute; reflexivity].
  - apply (api_endpoint_unauthorized demo_env (Http_request true (Some VNone))
             World world_step (demo_world always_200)); [reflexivity |].
    left. reflexivity.
  - apply (api_endpoint_unauthorized demo_env (Http_request false None)
             World world_step (demo_world always_200)).
    left. reflexivity.
Defined.

(** C1 as stated fails on an absent body: for a POST that announces JSON
    and has an empty body, and for one without a JSON content type,
    [request.get_json()] raises and the view returns no 403 response. *)
Lemma api_endpoint_absent_body_counterexample :
  result_of world_step (api_endpoint demo_env (Http_request true None))
    (demo_world always_200) = inl (Exn BadRequest "400 Bad Request") /\
  result_of world_step (api_endpoint demo_env (Http_request false None))
    (demo_world always_200) =
    inl (Exn UnsupportedMediaType "415 Unsupported Media Type") /\
  result_of world_step (api_endpoint demo_env (Http_request true None))
    (demo_world always_200)
    <> inr (Response (VDict [("error", VStr "Unauthorized")]) 403).
Proof.
  split; [reflexivity |]. split; [reflexivity | discriminate].
Qed.

(** C9, as the code has it.  A request that passes the secret validation
    (its body decodes to an object with the matching secret) is answered
    with status 200 and body
    [{"status": "Request received and is being processed."}], and the only
    call the view makes is the start of the background thread: it returns
    without waiting for the task.  Every response that the view returns
    has status 200 or 403, and it returns one whenever the body decodes
    to [null] or to an object.  When the body is absent or does not
    decode, [request.get_json()] raises and the view returns neither: the
    exception carries status 415 or 400. *)
Theorem api_endpoint_accepted (env : environ) (request : http_request)
    (W : Type) (h : handler W) (w : W) :
  (forall items,
      is_json request = true ->
      json_loads request = Some (VDict items) ->
      secret_accepted env items = true ->
      run h (api_endpoint env request) w =
        (inr (Response
                (VDict [("status", VStr "Request received and is being processed.")])
                200),
         snd (h _ (ThreadStart Target_process_build_task [VDict items]) w),
         [Entry (ThreadStart Target_process_build_task [VDict items]) tt])) /\
  (forall r : response,
      result_of h (api_endpoint env request) w = inr r ->
      status r = 200 \/ status r = 403) /\
  (is_json request = true ->
   (json_loads request = Some VNone \/
    exists items, json_loads request = Some (VDict items)) ->
   exists r : response, result_of h (api_endpoint env request) w = inr r) /\
  (is_json request = false \/ json_loads request = None ->
   exists err code,
     result_of h (api_endpoint env request) w = inl err /\
     http_code (exn_type err) = Some code /\ (code = 415 \/ code = 400)).
Proof.
  unfold result_of. rewrite api_endpoint_run.
  split; [| split; [| split]].
  - intros items -> -> Hok. rewrite handle_build_request_dict, Hok. reflexivity.
  - intros r. destruct (is_json request); [| discriminate].
    destruct (json_loads request) as [data |]; [| discriminate].
    destruct data as [| b | z | f | s | l | items];
      try (rewrite handle_build_request_other by congruence;
           destruct (truthy _); cbn; intros Hr; [discriminate Hr |];
           injection Hr as <-; right; reflexivity).
    + rewrite handle_build_request_None. cbn. intros Hr.
      injection Hr as <-. right. reflexivity.
    + rewrite handle_build_request_dict.
      destruct (secret_accepted env items); cbn; intros Hr;
        injection Hr as <-; [left | right]; reflexivity.
  - intros -> [-> | (items & ->)].
    + rewrite handle_build_request_None. eauto.
    + rewrite handle_build_request_dict.
      destruct (secret_accepted env items); eauto.
  - intros [-> | Hloads].
    + exists (Exn UnsupportedMediaType "415 Unsupported Media Type"), 415. auto.
    + destruct (is_json request).
      * rewrite Hloads.
        exists (Exn BadRequest "400 Bad Request"), 400. auto.
      * exists (Exn UnsupportedMediaType "415 Unsupported Media Type"), 415.
        auto.
Qed.

Lemma api_endpoint_accepted_witness :
  run world_step
    (api_endpoint demo_env (Http_request true (Some (VDict demo_request))))
    (demo_world always_200) =
    (inr (Response
            (VDict [("status", VStr "Request received and is being processed.")])
            200),
     snd (world_step _ (ThreadStart Target_process_build_task [VDict demo_request])
            (demo_world always_200)),
     [Entry (ThreadStart Target_process_build_task [VDict demo_request]) tt]) /\
  (exists r : response,
      result_of world_step
        (api_endpoint demo_env (Http_request true (Some VNone)))
        (demo_world always_200) = inr r) /\
  exists err code,
    result_of world_step (api_endpoint demo_env (Http_request true None))
      (demo_world always_200) = inl err /\
    http_code (exn_type err) = Some code /\ (code = 415 \/ code = 400).
Proof.
  split; [| split].
  - apply (api_endpoint_accepted demo_env
             (Http_request true (Some (VDict demo_request))) World world_step
             (demo_world always_200)); [reflexivity | reflexivity |].
    vm_compute. reflexivity.
  - apply (api_endpoint_accepted demo_env (Http_request true (Some VNone))
             World world_step (demo_world always_200)); [reflexivity |].
    left. reflexivity.
  - apply (api_endpoint_accepted demo_env (Http_request true None) World
             world_step (demo_world always_200)).
    right. reflexivity.
Defined.

(** C9 as stated fails twice: the body of the 200 response is not
    [{"status": "accepted"}], and a POST with an empty body is answered
    with neither 200 nor 403, because [request.get_json()] raises
    [BadRequest], whose status is 400. *)
Lemma api_endpoint_accepted_counterexample :
  secret_accepted demo_env demo_request = true /\
  result_of world_step
    (api_endpoint demo_env (Http_request true (Some (VDict demo_request))))
    (demo_world always_200) =
    inr (Response
           (VDict [("status", VStr "Request received and is being processed.")])
           200) /\
  VDict [("status", VStr "Request received and is being processed.")]
    <> VDict [("status", VStr "accepted")] /\
  result_of world_step (api_endpoint demo_env (Http_request true None))
    (demo_world always_200) = inl (Exn BadRequest "400 Bad Request") /\
  http_code BadRequest = Some 400.
Proof.
  split; [vm_compute; reflexivity |].
  split; [vm_compute; reflexivity |].
  split; [discriminate |].
  split; reflexivity.
Qed.

(** C10, as the code has it.  When [MY_APP_SECRET] is unset, a request
    whose body is a non-empty JSON object without a [secret] field (or
    with a null one) is answered with status 200, and the handler starts
    the background thread. *)
Theorem handle_build_request_unset_secret (env : environ)
    (items : list (string * value)) (W : Type) (h : handler W) (w : W) :
  env !! "MY_APP_SECRET" = None ->
  items <> [] ->
  dict_get items "secret" VNone = VNone ->
  run h (handle_build_request env (VDict items)) w =
    (inr (Response
            (VDict [("status", VStr "Request received and is being processed.")])
            200),
     snd (h _ (ThreadStart Target_process_build_task [VDict items]) w),
     [Entry (ThreadStart Target_process_build_task [VDict items]) tt]).
Proof.
  intros Henv Hitems Hsecret.
  rewrite handle_build_request_dict. unfold secret_accepted.
  rewrite Henv, Hsecret.
  destruct items as [| item items]; [congruence | reflexivity].
Qed.

Lemma handle_build_request_unset_secret_witness :
  (∅ : environ) !! "MY_APP_SECRET" = None /\
  result_of world_step (handle_build_request ∅ (VDict [("task", VStr "42")]))
    (demo_world always_200) =
    inr (Response
           (VDict [("status", VStr "Request received and is being processed.")])
           200) /\
  threads
    (world_after world_step
       (handle_build_request ∅ (VDict [("task", VStr "42")]))
       (demo_world always_200)) =
    [(Target_process_build_task, [VDict [("task", VStr "42")]])].
Proof.
  split; [reflexivity |].
  unfold result_of, world_after.
  rewrite (handle_build_request_unset_secret ∅ [("task", VStr "42")]
             World world_step (demo_world always_200));
    [split; reflexivity | reflexivity | discriminate | reflexivity].
Defined.

(** C10 as stated fails on the empty object: the body is present and has
    no [secret] field, the expected secret is unset, and the request is
    refused. *)
Lemma handle_build_request_empty_object_counterexample :
  (∅ : environ) !! "MY_APP_SECRET" = None /\
  dict_get [] "secret" VNone = VNone /\
  run world_step (handle_build_request ∅ (VDict [])) (demo_world always_200) =
    (inr (Response (VDict [("error", VStr "Unauthorized")]) 403),
     demo_world always_200, []).
Proof. repeat split. Qed.

(* ===================================================================== *)
(** ** The notifier against a scripted evaluator *)
(* ===================================================================== *)

Section Notifier.
Context `{Builtins}.
Variables url payload : value.

Lemma notify_loop_done (delay : Z) (w : World) :
  run world_step (notify_loop url payload [] delay) w =
    (inr false, w,
     [Entry (Print "❌ Could not notify evaluator after multiple retries.") tt]).
Proof. reflexivity. Qed.

Lemma notify_loop_retry (i : nat) (range : list nat) (delay : Z) (w : World) :
  attempt_fails (evaluator w (posts w)) = true ->
  exists line1 line2,
    run world_step (notify_loop url payload (i :: range) delay) w =
      let '(r, w2, tr) :=
        run world_step (notify_loop url payload range (delay * 2))
          (set_posts (S (posts w)) w) in
      (r, w2,
       Entry (Print line1) tt
       :: Entry (RequestsPost url payload 10) (evaluator w (posts w))
       :: Entry (Print line2) tt
       :: Entry (Sleep delay) tt :: tr).
Proof.
  intros Hfail.
  cbn [notify_loop bindE bind try_except print perform call time_sleep ret run
       world_step].
  destruct (evaluator w (posts w)) as [err | status_code]; cbn in Hfail |- *.
  - rewrite Hfail. cbn.
    destruct (run world_step _ _) as [[r w2] tr]. eauto.
  - destruct (status_code =? 200); [discriminate |]. cbn.
    destruct (run world_step _ _) as [[r w2] tr]. eauto.
Qed.

Lemma notify_loop_success (i : nat) (range : list nat) (delay : Z) (w : World) :
  evaluator w (posts w) = inr 200 ->
  exists line1,
    run world_step (notify_loop url payload (i :: range) delay) w =
      (inr true, set_posts (S (posts w)) w,
       [Entry (Print line1) tt;
        Entry (RequestsPost url payload 10) (inr 200);
        Entry (Print "✅ Successfully notified evaluator.") tt]).
Proof.
  intros Hok.
  cbn [notify_loop bindE bind try_except print perform call time_sleep ret run
       world_step].
  rewrite Hok. cbn. eauto.
Qed.

Lemma notify_loop_exhausted (range : list nat) :
  forall (delay : Z) (w : World),
    (forall j, (j < length range)%nat ->
       attempt_fails (evaluator w (posts w + j)) = true) ->
    let tr := trace_of world_step (notify_loop url payload range delay) w in
    result_of world_step (notify_loop url payload range delay) w = inr false /\
    posted tr = repeat (url, payload) (length range) /\
    sleeps tr = backoff delay (length range) /\
    forall seen pending,
      delays_from seen pending tr =
        match range with
        | [] => []
        | _ :: range' =>
            ((if seen then [pending] else []) ++ backoff delay (length range'))%list
        end.
Proof.
  unfold trace_of, result_of.
  induction range as [| i range IH]; intros delay w Hfail.
  - rewrite notify_loop_done. cbn. auto.
  - destruct (notify_loop_retry i range delay w) as (line1 & line2 & Hrun).
    { specialize (Hfail 0%nat). rewrite Nat.add_0_r in Hfail.
      apply Hfail. cbn. lia. }
    rewrite Hrun. clear Hrun.
    specialize (IH (delay * 2) (set_posts (S (posts w)) w)).
    destruct (run world_step _ _) as [[r w2] tr].
    cbn [fst snd] in IH |- *.
    destruct IH as (Hr & Hposted & Hsleeps & Hdelays).
    { intros j Hj. cbn [evaluator posts set_posts].
      replace (S (posts w) + j)%nat with (posts w + S j)%nat by lia.
      apply Hfail. cbn. lia. }
    split; [exact Hr |].
    split; [cbn; rewrite Hposted; reflexivity |].
    split; [cbn; rewrite Hsleeps; reflexivity |].
    intros seen pending. cbn [delays_from made].
    rewrite Hdelays.
    destruct range as [| i' range'].
    + destruct seen; reflexivity.
    + destruct seen; cbn; rewrite Z.add_0_l; reflexivity.
Qed.

Lemma notify_loop_first_success (range : list nat) :
  forall (delay : Z) (w : World) (k : nat),
    (k < length range)%nat ->
    (forall j, (j < k)%nat -> attempt_fails (evaluator w (posts w + j)) = true) ->
    evaluator w (posts w + k) = inr 200 ->
    result_of world_step (notify_loop url payload range delay) w = inr true /\
    post_count (trace_of world_step (notify_loop url payload range delay) w) = S k.
Proof.
  unfold trace_of, result_of.
  induction range as [| i range IH]; intros delay w k Hk Hfail Hok.
  - cbn in Hk. lia.
  - destruct k as [| k].
    + rewrite Nat.add_0_r in Hok.
      destruct (notify_loop_success i range delay w Hok) as (line1 & ->).
      split; reflexivity.
    + destruct (notify_loop_retry i range delay w) as (line1 & line2 & Hrun).
      { specialize (Hfail 0%nat). rewrite Nat.add_0_r in Hfail.
        apply Hfail. lia. }
      rewrite Hrun. clear Hrun.
      specialize (IH (delay * 2) (set_posts (S (posts w)) w) k).
      destruct (run world_step _ _) as [[r w2] tr].
      cbn [fst snd] in IH |- *.
      destruct IH as (Hr & Hcount).
      * cbn in Hk. lia.
      * intros j Hj. cbn [evaluator posts set_posts].
        replace (S (posts w) + j)%nat with (posts w + S j)%nat by lia.
        apply Hfail. lia.
      * cbn [evaluator posts set_posts].
        replace (S (posts w) + k)%nat with (posts w + S k)%nat by lia.
        exact Hok.
      * split; [exact Hr |]. unfold post_count in *. cbn. rewrite Hcount.
        reflexivity.
Qed.

Lemma next_answers_S (w : World) (n : nat) :
  next_answers w (S n) =
    evaluator w (posts w) :: next_answers (set_posts (S (posts w)) w) n.
Proof.
  unfold next_answers. cbn [seq map]. rewrite Nat.add_0_r. f_equal.
  rewrite <- seq_shift, map_map. apply map_ext. intros j.
  cbn [evaluator posts set_posts]. f_equal. lia.
Qed.

Lemma notify_loop_outcome (range : list nat) :
  forall (delay : Z) (w : World),
    forallb status_or_transport_error (next_answers w (length range)) = true ->
    result_of world_step (notify_loop url payload range delay) w =
      inr (existsb got_200 (next_answers w (length range))) /\
    post_count (trace_of world_step (notify_loop url payload range delay) w) =
      attempts_needed (next_answers w (length range)).
Proof.
  unfold trace_of, result_of.
  induction range as [| i range IH]; intros delay w Hans.
  - rewrite notify_loop_done. split; reflexivity.
  - cbn [length] in Hans |- *. rewrite next_answers_S in Hans |- *.
    cbn [forallb existsb attempts_needed] in Hans |- *.
    apply andb_prop in Hans as [Hfirst Hrest].
    destruct (got_200 (evaluator w (posts w))) eqn:Hgot.
    + assert (Hok : evaluator w (posts w) = inr 200).
      { destruct (evaluator w (posts w)) as [err | status_code];
          [discriminate |].
        cbn in Hgot. apply Z.eqb_eq in Hgot. congruence. }
      destruct (notify_loop_success i range delay w Hok) as (line1 & ->).
      split; reflexivity.
    + destruct (notify_loop_retry i range delay w) as (line1 & line2 & Hrun).
      { destruct (evaluator w (posts w)) as [err | status_code];
          cbn in Hfirst, Hgot |- *; [exact Hfirst | rewrite Hgot; reflexivity]. }
      rewrite Hrun. clear Hrun.
      specialize (IH (delay * 2) (set_posts (S (posts w)) w) Hrest).
      destruct (run world_step _ _) as [[r w2] tr].
      cbn [fst snd] in IH |- *. destruct IH as (Hr & Hcount).
      split; [exact Hr |]. unfold post_count in *. cbn. rewrite Hcount.
      reflexivity.
Qed.

End Notifier.

(** C2. Against an evaluator that always answers with a status other
    than 200, [notify_evaluator] makes exactly 5 POSTs, sleeps 1, 2, 4 and
    8 seconds between them, and returns [False].  (It also sleeps 16
    seconds after the fifth POST, before it returns.) *)
Theorem notify_evaluator_exhausts_retries `{Builtins} (url payload : value)
    (w : World) :
  (forall n, exists status_code,
      evaluator w n = inr status_code /\ status_code <> 200) ->
  let tr := trace_of world_step (notify_evaluator url payload) w in
  result_of world_step (notify_evaluator url payload) w = inr false /\
  post_count tr = 5%nat /\
  posted tr = repeat (url, payload) 5 /\
  inter_attempt_delays tr = [1; 2; 4; 8] /\
  sleeps tr = [1; 2; 4; 8; 16].
Proof.
  intros Hnever.
  destruct (notify_loop_exhausted url payload (seq 0 max_retries) 1 w)
    as (Hr & Hposted & Hsleeps & Hdelays).
  { intros j _. destruct (Hnever (posts w + j)%nat) as (s & -> & Hs).
    cbn. apply negb_true_iff, Z.eqb_neq, Hs. }
  cbv zeta. unfold notify_evaluator.
  split; [exact Hr |].
  split.
  { unfold post_count.
    assert (Hlen : forall tr, length (List.filter is_post tr) = length (posted tr)).
    { induction tr as [| [X ev a] tr IHtr]; [reflexivity |].
      destruct ev; cbn; auto. }
    rewrite Hlen, Hposted. reflexivity. }
  split; [exact Hposted |].
  split; [| exact Hsleeps].
  unfold inter_attempt_delays. rewrite Hdelays. reflexivity.
Qed.

Lemma notify_evaluator_exhausts_retries_witness :
  result_of world_step
    (@notify_evaluator demo_builtins (VStr "https://eval.example/cb") (VDict []))
    (demo_world always_500) = inr false /\
  inter_attempt_delays
    (trace_of world_step
       (@notify_evaluator demo_builtins (VStr "https://eval.example/cb")
          (VDict []))
       (demo_world always_500)) = [1; 2; 4; 8].
Proof.
  destruct (@notify_evaluator_exhausts_retries demo_builtins
              (VStr "https://eval.example/cb") (VDict [])
              (demo_world always_500)) as (Hr & _ & _ & Hdelays & _).
  - intros n. exists 500. split; [reflexivity | lia].
  - split; [exact Hr | exact Hdelays].
Defined.

(** C3. For 1 <= k <= 5, against an evaluator whose first 200 comes on
    attempt k (the attempts before it get another status or a
    transport-level error), [notify_evaluator] makes exactly k POSTs and
    returns [True]. *)
Theorem notify_evaluator_succeeds_on_attempt `{Builtins} (url payload : value)
    (w : World) (k : nat) :
  (1 <= k <= 5)%nat ->
  (forall j, (j < k - 1)%nat ->
     attempt_fails (evaluator w (posts w + j)) = true) ->
  evaluator w (posts w + (k - 1)) = inr 200 ->
  result_of world_step (notify_evaluator url payload) w = inr true /\
  post_count (trace_of world_step (notify_evaluator url payload) w) = k.
Proof.
  intros Hk Hfail Hok.
  destruct (notify_loop_first_success url payload (seq 0 max_retries) 1 w (k - 1))
    as (Hr & Hcount); [rewrite length_seq; unfold max_retries; lia | auto ..|].
  unfold notify_evaluator. split; [exact Hr |].
  cbv zeta. rewrite Hcount. lia.
Qed.

Lemma notify_evaluator_succeeds_on_attempt_witness :
  result_of world_step
    (@notify_evaluator demo_builtins (VStr "https://eval.example/cb") (VDict []))
    (demo_world third_time_lucky) = inr true /\
  post_count
    (trace_of world_step
       (@notify_evaluator demo_builtins (VStr "https://eval.example/cb")
          (VDict []))
       (demo_world third_time_lucky)) = 3%nat.
Proof.
  apply (@notify_evaluator_succeeds_on_attempt demo_builtins
           (VStr "https://eval.example/cb") (VDict [])
           (demo_world third_time_lucky) 3).
  - lia.
  - intros [| [| j]] Hj; [reflexivity | reflexivity | cbn in Hj; lia].
  - reflexivity.
Defined.

(** C4. Against an evaluator that answers every attempt with a status or
    a transport-level error, [notify_evaluator] never raises: it returns
    a boolean, [True] exactly when one of the at most five attempts is
    answered with status 200, and it stops at the first such answer;
    every other status and every transport-level error makes the attempt
    a failed one. *)
Theorem notify_evaluator_returns_bool `{Builtins} (url payload : value)
    (w : World) :
  (forall j, (j < 5)%nat ->
     status_or_transport_error (evaluator w (posts w + j)) = true) ->
  result_of world_step (notify_evaluator url payload) w =
    inr (existsb got_200 (next_answers w 5)) /\
  post_count (trace_of world_step (notify_evaluator url payload) w) =
    attempts_needed (next_answers w 5).
Proof.
  intros Hans.
  apply (notify_loop_outcome url payload (seq 0 max_retries) 1 w).
  rewrite length_seq. unfold next_answers, max_retries.
  rewrite forallb_forall. intros a Ha.
  apply in_map_iff in Ha as (j & <- & Hj). apply in_seq in Hj.
  apply Hans. lia.
Qed.

Lemma notify_evaluator_returns_bool_witness :
  result_of world_step
    (@notify_evaluator demo_builtins (VStr "https://eval.example/cb") (VDict []))
    (demo_world third_time_lucky) = inr true /\
  result_of world_step
    (@notify_evaluator demo_builtins (VStr "https://eval.example/cb") (VDict []))
    (demo_world always_500) = inr false.
Proof.
  split.
  - apply (@notify_evaluator_returns_bool demo_builtins
             (VStr "https://eval.example/cb") (VDict [])
             (demo_world third_time_lucky)).
    intros [| [| j]] _; reflexivity.
  - apply (@notify_evaluator_returns_bool demo_builtins
             (VStr "https://eval.example/cb") (VDict [])
             (demo_world always_500)).
    intros j _. reflexivity.
Defined.

(* ===================================================================== *)
(** ** The background task against any outside world *)
(* ===================================================================== *)

Section Task.
Context `{Builtins}.

Lemma notify_loop_calls (url payload : value) (range : list nat) :
  forall delay : Z,
    holds_on_all_runs
      (fun tr _ =>
         Forall (notify_entry url payload) tr /\
         (range <> [] -> posted tr <> []) /\
         (length (posted tr) <= length range)%nat)
      (notify_loop url payload range delay).
Proof.
  induction range as [| i range IH]; intros delay.
  - cbn. intros []. split; [| split; [congruence | cbn; lia]].
    repeat constructor.
  - cbn [notify_loop bindE bind try_except print perform call time_sleep ret
         holds_on_all_runs].
    intros [] [err | status_code]; cbn.
    + destruct (is_RequestException err); cbn.
      * intros [] []. eapply holds_on_all_runs_weaken; [| apply IH].
        cbn beta. intros tr _ (Hall & _ & Hlen).
        split; [| split; [cbn; congruence | cbn; lia]].
        repeat (constructor; [cbn; auto |]). exact Hall.
      * split; [| split; [cbn; congruence | cbn; lia]].
        repeat (constructor; [cbn; auto |]). constructor.
    + destruct (status_code =? 200); cbn.
      * intros []. split; [| split; [cbn; congruence | cbn; lia]].
        repeat (constructor; [cbn; auto |]). constructor.
      * intros [] []. eapply holds_on_all_runs_weaken; [| apply IH].
        cbn beta. intros tr _ (Hall & _ & Hlen).
        split; [| split; [cbn; congruence | cbn; lia]].
        repeat (constructor; [cbn; auto |]). exact Hall.
Qed.

Lemma holds_on_all_runs_assoc {A B C : Type} (p : prog A) (f : A -> prog B)
    (g : B -> prog C) :
  forall P : list entry -> C -> Prop,
    holds_on_all_runs P (bind p (fun a => bind (f a) g)) ->
    holds_on_all_runs P (bind (bind p f) g).
Proof.
  induction p as [a | X e k IH]; intros P HP; simpl in *.
  - exact HP.
  - intros x. apply IH. apply HP.
Qed.

Lemma holds_after_notify {A : Type} (P : list entry -> A -> Prop)
    (url payload : value) (k : exn + bool -> prog A) :
  (forall tr r,
      Forall (notify_entry url payload) tr ->
      posted tr <> [] -> (length (posted tr) <= 5)%nat ->
      holds_on_all_runs (fun tr2 a => P (tr ++ tr2)%list a) (k r)) ->
  holds_on_all_runs P (bind (notify_evaluator url payload) k).
Proof.
  intros Hk. apply holds_on_all_runs_bind.
  eapply holds_on_all_runs_weaken; [| apply notify_loop_calls].
  cbn beta. intros tr r (Hall & Hposted & Hlen). apply Hk; [exact Hall | |].
  - apply Hposted. discriminate.
  - rewrite length_seq in Hlen. exact Hlen.
Qed.

Lemma llm_errors_app (tr1 tr2 : list entry) :
  llm_errors (tr1 ++ tr2) = (llm_errors tr1 ++ llm_errors tr2)%list.
Proof.
  induction tr1 as [| e tr1 IH]; [reflexivity |].
  cbn. destruct (if is_llm e then error_of e else None); cbn; congruence.
Qed.

Lemma generated_app (tr1 tr2 : list entry) :
  generated (tr1 ++ tr2) = (generated tr1 ++ generated tr2)%list.
Proof.
  induction tr1 as [| [X ev a] tr1 IH]; [reflexivity |].
  destruct ev; cbn; try congruence.
  destruct a as [err | [| [content |] choices]]; cbn; congruence.
Qed.

Lemma repo_names_app (tr1 tr2 : list entry) :
  repo_names (tr1 ++ tr2) = (repo_names tr1 ++ repo_names tr2)%list.
Proof.
  induction tr1 as [| [X ev a] tr1 IH]; [reflexivity |].
  destruct ev; cbn; congruence.
Qed.

Lemma deleted_app (tr1 tr2 : list entry) :
  deleted (tr1 ++ tr2) = (deleted tr1 ++ deleted tr2)%list.
Proof.
  induction tr1 as [| [X ev a] tr1 IH]; [reflexivity |].
  destruct ev; cbn; congruence.
Qed.

Lemma found_app (tr1 tr2 : list entry) :
  found (tr1 ++ tr2) = (found tr1 ++ found tr2)%list.
Proof.
  induction tr1 as [| [X ev a] tr1 IH]; [reflexivity |].
  destruct ev; cbn; try congruence.
  destruct a; cbn; congruence.
Qed.

Lemma posted_app (tr1 tr2 : list entry) :
  posted (tr1 ++ tr2) = (posted tr1 ++ posted tr2)%list.
Proof.
  induction tr1 as [| [X ev a] tr1 IH]; [reflexivity |].
  destruct ev; cbn; congruence.
Qed.

Lemma printed_app (tr1 tr2 : list entry) :
  printed (tr1 ++ tr2) = (printed tr1 ++ printed tr2)%list.
Proof.
  induction tr1 as [| [X ev a] tr1 IH]; [reflexivity |].
  destruct ev; cbn; congruence.
Qed.

(** The calls of [notify_evaluator] are neither language-model nor
    source-hosting calls, and none of them stops the task. *)
Lemma notify_entries_only (url payload : value) (tr : list entry) :
  Forall (notify_entry url payload) tr ->
  llm_errors tr = [] /\
  generated tr = [] /\
  List.filter is_create_repo tr = [] /\
  List.filter is_create_file tr = [] /\
  github_calls tr = [] /\
  existsb went_wrong tr = false /\
  Forall (fun sent => sent = (url, payload)) (posted tr) /\
  repo_names tr = [] /\ deleted tr = [] /\ found tr = [].
Proof.
  unfold github_calls.
  induction 1 as [| [X ev a] tr He _ IH]; [repeat split; constructor |].
  destruct IH as (? & ? & ? & ? & ? & ? & ? & ? & ? & ?).
  destruct ev; cbn in He |- *; try contradiction; repeat split; auto.
  destruct He as [-> ->]. constructor; auto.
Qed.

#[local] Arguments String.append : simpl never.
#[local] Arguments py_str : simpl never.
#[local] Arguments notify_evaluator : simpl never.
#[local] Arguments dict_get : simpl never.
#[local] Arguments truthy : simpl never.
#[local] Arguments is_GithubException : simpl never.

(** Push the readers of a record of calls through [++] and use what is
    known of the calls of [notify_evaluator]. *)
Ltac tidy_trace :=
  cbn;
  rewrite ?List.filter_app, ?generated_app, ?printed_app, ?posted_app,
    ?llm_errors_app;
  cbn;
  repeat match goal with
    | Heq : ?l = [] |- context [?l] => rewrite Heq
    end;
  cbn.

(** Membership in an explicit list. *)
Ltac find_in := repeat first [left; reflexivity | right].

(** One step of a run: the next call and every answer to it. *)
Ltac next_call :=
  cbn; unfold bindE;
  match goal with
  | |- forall _ : unit, _ => intros []
  | |- forall _ : exn + list (option string), _ =>
      intros [?err | [| [?content |] ?choices]]
  | |- forall _ : exn + unit, _ => intros [?err | []]
  | |- forall _ : exn + _, _ => intros [?err | ?ans]
  | |- context [if is_GithubException ?e then _ else _] =>
      destruct (is_GithubException e) eqn:?
  | |- context [if truthy ?v then _ else _] => destruct (truthy v) eqn:?
  | |- holds_on_all_runs _ (bind (bind _ _) _) =>
      apply holds_on_all_runs_assoc
  | |- holds_on_all_runs _ (bind (notify_evaluator _ _) _) =>
      apply holds_after_notify;
      let Hcalls := fresh "Hcalls" in
      let Hposted := fresh "Hposted" in
      let Hbound := fresh "Hbound" in
      intros ?tr [?err | ?sent] Hcalls Hposted Hbound;
      apply (notify_entries_only _ _ _) in Hcalls;
      let Hquiet := fresh "Hquiet" in
      let Hsent := fresh "Hsent" in
      destruct Hcalls as (? & ? & ? & ? & ? & Hquiet & Hsent & ? & ? & ?)
  end.

Ltac all_runs := unfold process_build_task, build_and_deploy; repeat next_call.

Lemma process_build_task_returns (env : environ) (items : list (string * value)) :
  holds_on_all_runs
    (fun tr r =>
       r = inr tt /\
       (llm_errors tr <> [] ->
        List.filter is_create_repo tr = [] /\
        posted tr = [] /\
        exists err,
          In err (llm_errors tr) /\
          In ("❌ An error occurred: " +:+ exn_str err) (printed tr)))
    (process_build_task env (VDict items)).
Proof.
  all_runs.
  all: split; [reflexivity |].
  all: repeat rewrite ?llm_errors_app; cbn.
  all: repeat match goal with Heq : llm_errors _ = [] |- _ => rewrite Heq end.
  all: try (intros Herr; exfalso; apply Herr; reflexivity).
  all: intros _; split; [reflexivity |]; split; [reflexivity |].
  all: eexists; split; [left; reflexivity | cbn; auto 10].
Qed.

Lemma process_build_task_publish (env : environ) (items : list (string * value)) :
  holds_on_all_runs
    (fun tr _ =>
       forall repo rest,
         after_create tr = Some (repo, rest) ->
         existsb went_wrong rest = false ->
         exists code readme user branch,
           generated tr = [code; readme] /\
           In (Entry (GetUser (env !! "GITHUB_PAT")) (inr user)) tr /\
           In (Entry
                 (CreateRepo user
                    ("llm-app-" +:+ py_str (dict_get items "task" VNone)) false)
                 (inr repo)) tr /\
           github_calls rest =
             [Entry (CreateFile repo "LICENSE" "feat: add MIT license"
                       MIT_LICENSE) (inr tt);
              Entry (CreateFile repo "README.md"
                       "docs: generate professional readme" (str_strip readme))
                (inr tt);
              Entry (CreateFile repo "index.html" "feat: add application code"
                       (str_strip code)) (inr tt);
              Entry (CreateFile repo ".github/workflows/deploy.yml"
                       "ci: add GitHub Pages deployment workflow"
                       GITHUB_WORKFLOW_YAML) (inr tt);
              Entry (GetBranch repo "main") (inr branch)] /\
           In ("🔑 Commit SHA: " +:+ commit_sha branch) (printed rest) /\
           In ("🌐 Pages URL: " +:+ "https://" +:+ login user +:+ ".github.io/"
               +:+ ("llm-app-" +:+ py_str (dict_get items "task" VNone))
               +:+ "/") (printed rest))
    (process_build_task env (VDict items)).
Proof.
  all_runs.
  all: intros repo rest Hcreate Hwrong; try discriminate Hcreate.
  all: injection Hcreate as <- <-.
  all: rewrite ?existsb_app in Hwrong; cbn in Hwrong; try discriminate Hwrong.
  all: unfold github_calls in *; tidy_trace.
  all: do 4 eexists.
  all: split; [reflexivity |].
  all: split; [find_in |].
  all: split; [find_in |].
  all: split; [reflexivity |].
  all: split; find_in.
Qed.

Lemma process_build_task_notify (env : environ) (items : list (string * value)) :
  let url := dict_get items "evaluation_url" VNone in
  holds_on_all_runs
    (fun tr _ =>
       (truthy url = false -> posted tr = []) /\
       (existsb went_wrong tr = false ->
        exists user repo rest branch,
          length (generated tr) = 2%nat /\
          In (Entry (GetUser (env !! "GITHUB_PAT")) (inr user)) tr /\
          after_create tr = Some (repo, rest) /\
          length (List.filter is_create_file rest) = 4%nat /\
          In (Entry (GetBranch repo "main") (inr branch)) rest /\
          (truthy url = true ->
           posted tr <> [] /\
           (length (posted tr) <= 5)%nat /\
           Forall (fun sent => sent = (url, notification items user repo branch))
             (posted tr))))
    (process_build_task env (VDict items)).
Proof.
  cbv zeta. unfold notification.
  all_runs.
  all: rewrite ?existsb_app, ?posted_app; cbn.
  all: (split;
        [first [ intros _; reflexivity
               | let Hfalsy := fresh in intros Hfalsy; discriminate Hfalsy ] |]).
  all: intros Hwrong; try discriminate Hwrong.
  all: try (rewrite Hquiet in Hwrong; cbn in Hwrong); try discriminate Hwrong.
  all: tidy_trace.
  all: do 4 eexists.
  all: split; [reflexivity |].
  all: split; [find_in |].
  all: split; [reflexivity |].
  all: split; [tidy_trace; reflexivity |].
  all: split; [find_in |].
  all: let Htruthy := fresh in intros Htruthy; try discriminate Htruthy.
  all: rewrite ?app_nil_r; auto.
Qed.

Lemma process_build_task_names (env : environ) (items : list (string * value)) :
  holds_on_all_runs
    (fun tr _ =>
       Forall (fun repo_name =>
                 repo_name = "llm-app-" +:+ py_str (dict_get items "task" VNone))
         (repo_names tr) /\
       deleted tr = found tr)
    (process_build_task env (VDict items)).
Proof.
  all_runs.
  all: cbn; rewrite ?repo_names_app, ?deleted_app, ?found_app; cbn.
  all: repeat match goal with
         | Heq : ?l = [] |- context [?l] => rewrite Heq
         end.
  all: split; [repeat constructor | reflexivity].
Qed.

End Task.

(** C6. Once the repository is created, and as long as none of the calls
    that follow raises, the calls made to the hosting library after the
    creation are exactly four commits and one branch read, in this order:
    the licence text at [LICENSE], the generated documentation at
    [README.md], the generated application code at [index.html], the
    deployment workflow at [.github/workflows/deploy.yml], then the read
    of branch [main], whose head commit is the commit identifier the task
    reports; the pages URL it reports is
    [https://<login>.github.io/llm-app-<task>/]. *)
Theorem process_build_task_commits_four_files `{Builtins} (env : environ)
    (items : list (string * value)) (W : Type) (h : handler W) (w : W)
    (repo : gh_repo) (rest : list entry) :
  let tr := trace_of h (process_build_task env (VDict items)) w in
  let repo_name := "llm-app-" +:+ py_str (dict_get items "task" VNone) in
  after_create tr = Some (repo, rest) ->
  existsb went_wrong rest = false ->
  exists code readme user branch,
    generated tr = [code; readme] /\
    In (Entry (GetUser (env !! "GITHUB_PAT")) (inr user)) tr /\
    In (Entry (CreateRepo user repo_name false) (inr repo)) tr /\
    github_calls rest =
      [Entry (CreateFile repo "LICENSE" "feat: add MIT license" MIT_LICENSE)
         (inr tt);
       Entry (CreateFile repo "README.md" "docs: generate professional readme"
                (str_strip readme)) (inr tt);
       Entry (CreateFile repo "index.html" "feat: add application code"
                (str_strip code)) (inr tt);
       Entry (CreateFile repo ".github/workflows/deploy.yml"
                "ci: add GitHub Pages deployment workflow" GITHUB_WORKFLOW_YAML)
         (inr tt);
       Entry (GetBranch repo "main") (inr branch)] /\
    In ("🔑 Commit SHA: " +:+ commit_sha branch) (printed rest) /\
    In ("🌐 Pages URL: " +:+ "https://" +:+ login user +:+ ".github.io/"
        +:+ repo_name +:+ "/") (printed rest).
Proof.
  cbv zeta.
  apply (holds_on_all_runs_sound _ _ (process_build_task_publish env items)).
Qed.

Lemma process_build_task_commits_four_files_witness :
  let tr :=
    trace_of world_step
      (@process_build_task demo_builtins demo_env (VDict demo_request))
      (demo_world always_200) in
  exists repo rest,
    after_create tr = Some (repo, rest) /\
    existsb went_wrong rest = false /\
    generated tr = ["<html></html>"; "# App"] /\
    length (github_calls rest) = 5%nat.
Proof.
  cbv zeta. eexists. eexists.
  split; [vm_compute; reflexivity |].
  split; [vm_compute; reflexivity |].
  edestruct (@process_build_task_commits_four_files demo_builtins demo_env
               demo_request World world_step (demo_world always_200))
    as (code & readme & user & branch & _ & _ & _ & Hcalls & _);
    [vm_compute; reflexivity | vm_compute; reflexivity |].
  split; [vm_compute; reflexivity | rewrite Hcalls; reflexivity].
Defined.

(** C7. The task never raises: whatever the outside world answers, it
    returns normally.  When a call to the language-model library raises,
    no repository creation is requested, nothing is POSTed to the
    evaluator, and the error is printed. *)
Theorem process_build_task_swallows_errors `{Builtins} (env : environ)
    (items : list (string * value)) (W : Type) (h : handler W) (w : W) :
  let tr := trace_of h (process_build_task env (VDict items)) w in
  result_of h (process_build_task env (VDict items)) w = inr tt /\
  (llm_errors tr <> [] ->
   List.filter is_create_repo tr = [] /\
   posted tr = [] /\
   exists err,
     In err (llm_errors tr) /\
     In ("❌ An error occurred: " +:+ exn_str err) (printed tr)).
Proof.
  cbv zeta.
  apply (holds_on_all_runs_sound _ _ (process_build_task_returns env items)).
Qed.

Lemma process_build_task_swallows_errors_witness :
  let tr :=
    trace_of world_step
      (@process_build_task demo_builtins demo_env (VDict demo_request))
      demo_world_llm_down in
  llm_errors tr = [Exn OpenAIError "Connection error."] /\
  List.filter is_create_repo tr = [] /\
  posted tr = [] /\
  In "❌ An error occurred: Connection error." (printed tr).
Proof.
  cbv zeta.
  destruct (@process_build_task_swallows_errors demo_builtins demo_env
              demo_request World world_step demo_world_llm_down)
    as (_ & Herr).
  destruct Herr as (Hrepo & Hposted & err & Hin & Hprinted);
    [vm_compute; discriminate |].
  split; [vm_compute; reflexivity |].
  split; [exact Hrepo |]. split; [exact Hposted |].
  vm_compute in Hin. destruct Hin as [<- | []]. exact Hprinted.
Defined.

(** C8. Without a truthy [evaluation_url] (in particular when the request
    has none, or a null one) nothing is POSTed.  When no call of
    generation or publication goes wrong, both texts are generated, the
    repository is created, four files are committed and branch [main] is
    read, with or without [evaluation_url]; and when [evaluation_url] is
    supplied, every POST (there are between one and five) goes to it and
    carries exactly the payload
    [{email, task, round, nonce, repo_url, commit_sha, pages_url}]. *)
Theorem process_build_task_notifies `{Builtins} (env : environ)
    (items : list (string * value)) (W : Type) (h : handler W) (w : W) :
  let tr := trace_of h (process_build_task env (VDict items)) w in
  let url := dict_get items "evaluation_url" VNone in
  (truthy url = false -> posted tr = []) /\
  (existsb went_wrong tr = false ->
   exists user repo rest branch,
     length (generated tr) = 2%nat /\
     In (Entry (GetUser (env !! "GITHUB_PAT")) (inr user)) tr /\
     after_create tr = Some (repo, rest) /\
     length (List.filter is_create_file rest) = 4%nat /\
     In (Entry (GetBranch repo "main") (inr branch)) rest /\
     (truthy url = true ->
      posted tr <> [] /\
      (length (posted tr) <= 5)%nat /\
      Forall (fun sent => sent = (url, notification items user repo branch))
        (posted tr))).
Proof.
  cbv zeta.
  apply (holds_on_all_runs_sound _ _ (process_build_task_notify env items)).
Qed.

Lemma process_build_task_notifies_witness :
  posted
    (trace_of world_step
       (@process_build_task demo_builtins demo_env (VDict demo_request_silent))
       (demo_world always_200)) = [] /\
  exists user repo branch,
    Forall
      (fun sent =>
         sent =
           (VStr "https://eval.example/cb",
            @notification demo_builtins demo_request user repo branch))
      (posted
         (trace_of world_step
            (@process_build_task demo_builtins demo_env (VDict demo_request))
            (demo_world always_200))).
Proof.
  split.
  - apply (@process_build_task_notifies demo_builtins demo_env
             demo_request_silent World world_step (demo_world always_200)).
    reflexivity.
  - destruct (@process_build_task_notifies demo_builtins demo_env demo_request
                World world_step (demo_world always_200)) as (_ & Hsent).
    destruct Hsent as (user & repo & rest & branch & _ & _ & _ & _ & _ & Hsent);
      [vm_compute; reflexivity |].
    destruct Hsent as (_ & _ & Hsent); [reflexivity |].
    exists user, repo, branch. exact Hsent.
Defined.

(* ===================================================================== *)
(** ** The background task against the reference model *)
(* ===================================================================== *)

Lemma ends_with_sound {A : Type} (p : prog A) :
  forall (Q : A -> World -> Prop) (w : World),
    ends_with Q p w ->
    Q (result_of world_step p w) (world_after world_step p w).
Proof.
  induction p as [a | X e k IH]; intros Q w HQ.
  - exact HQ.
  - destruct (run_Vis world_step e k w) as (-> & -> & _).
    apply IH. exact HQ.
Qed.

Lemma ends_with_weaken {A : Type} (p : prog A) :
  forall (Q Q' : A -> World -> Prop) (w : World),
    (forall a w', Q a w' -> Q' a w') -> ends_with Q p w -> ends_with Q' p w.
Proof.
  induction p as [a | X e k IH]; intros Q Q' w HQ Hp; simpl in *.
  - auto.
  - eapply IH; eauto.
Qed.

Lemma ends_with_bind {A B : Type} (p : prog A) (f : A -> prog B) :
  forall (Q : B -> World -> Prop) (w : World),
    ends_with (fun a w' => ends_with Q (f a) w') p w ->
    ends_with Q (bind p f) w.
Proof.
  induction p as [a | X e k IH]; intros Q w Hp; simpl in *.
  - exact Hp.
  - apply IH. exact Hp.
Qed.

Lemma ends_with_assoc {A B C : Type} (p : prog A) (f : A -> prog B)
    (g : B -> prog C) :
  forall (Q : C -> World -> Prop) (w : World),
    ends_with Q (bind p (fun a => bind (f a) g)) w ->
    ends_with Q (bind (bind p f) g) w.
Proof.
  induction p as [a | X e k IH]; intros Q w Hp; simpl in *.
  - exact Hp.
  - apply IH. exact Hp.
Qed.

Section TaskInWorld.
Context `{Builtins}.

(** [notify_evaluator] changes nothing but the count of POSTs. *)
Lemma notify_loop_world (url payload : value) (range : list nat) :
  forall (delay : Z) (w : World),
    ends_with (fun _ w' => exists n, w' = set_posts n w)
      (notify_loop url payload range delay) w.
Proof.
  induction range as [| i range IH]; intros delay w.
  - cbn. exists (posts w). destruct w; reflexivity.
  - cbn [notify_loop bindE bind try_except print perform call time_sleep ret
         ends_with world_step fst snd].
    destruct (evaluator w (posts w)) as [err | status_code]; cbn.
    + destruct (is_RequestException err); cbn.
      * eapply ends_with_weaken; [| apply IH].
        cbn beta. intros _ w' [n ->]. exists n. reflexivity.
      * eexists. reflexivity.
    + destruct (status_code =? 200); cbn.
      * eexists. reflexivity.
      * eapply ends_with_weaken; [| apply IH].
        cbn beta. intros _ w' [n ->]. exists n. reflexivity.
Qed.

#[local] Arguments String.append : simpl never.
#[local] Arguments py_str : simpl never.
#[local] Arguments notify_evaluator : simpl never.
#[local] Arguments dict_get : simpl never.
#[local] Arguments truthy : simpl never.

Lemma process_build_task_world (env : environ) (items : list (string * value))
    (w : World) (code readme : string) (more more' : list (option string)) :
  is_Some (env !! "OPENAI_API_KEY") ->
  is_Some (env !! "GITHUB_PAT") ->
  openai w (completions w) = inr (Some code :: more) ->
  openai w (S (completions w)) = inr (Some readme :: more') ->
  let repo_name := "llm-app-" +:+ py_str (dict_get items "task" VNone) in
  ends_with
    (fun r w' =>
       r = inr tt /\
       openai w' = openai w /\
       completions w' = S (S (completions w)) /\
       repos w' !! repo_name = Some (published code readme) /\
       forall other, other <> repo_name -> repos w' !! other = repos w !! other)
    (process_build_task env (VDict items)) w.
Proof.
  intros [key Hkey] [pat Hpat] Hcode Hreadme. cbv zeta.
  unfold process_build_task, build_and_deploy.
  cbn. rewrite Hkey. cbn. rewrite Hcode. cbn. rewrite Hreadme. cbn.
  rewrite Hpat. cbn.
  destruct (repos w !! _) as [old |] eqn:Hold; cbn;
    rewrite ?Hold; cbn; rewrite ?lookup_delete_eq; cbn;
    repeat (rewrite lookup_insert_eq; cbn).
  all: destruct (truthy _); cbn.
  all: try (apply ends_with_assoc; unfold bindE; apply ends_with_assoc;
            apply ends_with_bind;
            eapply ends_with_weaken; [| apply notify_loop_world];
            cbn beta; intros [err | sent] w' [n ->]; cbn).
  all: cbn; rewrite lookup_insert_eq.
  all: repeat (split; [reflexivity |]).
  all: intros other Hother.
  all: rewrite !lookup_insert_ne by congruence.
  all: rewrite ?lookup_delete_ne by congruence.
  all: reflexivity.
Qed.

End TaskInWorld.

(** C5. The repository name is the prefix [llm-app-] followed by the task
    identifier: whatever the outside world answers, it is the only name
    the task looks up or creates, and every repository that the look-up
    finds is requested to be deleted.  In the reference model, whatever
    the account holds before (a repository of that name or not), two runs
    of the task for the same task identifier leave under that name one
    repository whose files are exactly the four files of the second run;
    the other repositories of the account are untouched. *)
Theorem process_build_task_overwrites `{Builtins} (env : environ)
    (first second : list (string * value)) (w : World)
    (code1 readme1 code2 readme2 : string)
    (more1 more2 more3 more4 : list (option string)) :
  dict_get first "task" VNone = dict_get second "task" VNone ->
  is_Some (env !! "OPENAI_API_KEY") ->
  is_Some (env !! "GITHUB_PAT") ->
  openai w (completions w) = inr (Some code1 :: more1) ->
  openai w (completions w + 1) = inr (Some readme1 :: more2) ->
  openai w (completions w + 2) = inr (Some code2 :: more3) ->
  openai w (completions w + 3) = inr (Some readme2 :: more4) ->
  let repo_name := "llm-app-" +:+ py_str (dict_get second "task" VNone) in
  let w1 := world_after world_step (process_build_task env (VDict first)) w in
  let w2 := world_after world_step (process_build_task env (VDict second)) w1 in
  (forall (W : Type) (h : handler W) (w0 : W),
      let tr := trace_of h (process_build_task env (VDict second)) w0 in
      Forall (fun requested => requested = repo_name) (repo_names tr) /\
      deleted tr = found tr) /\
  repos w2 !! repo_name =
    Some (Repository
            [("LICENSE", MIT_LICENSE);
             ("README.md", str_strip readme2);
             ("index.html", str_strip code2);
             (".github/workflows/deploy.yml", GITHUB_WORKFLOW_YAML)]
            ["ci: add GitHub Pages deployment workflow";
             "feat: add application code";
             "docs: generate professional readme";
             "feat: add MIT license"]) /\
  forall other, other <> repo_name -> repos w2 !! other = repos w !! other.
Proof.
  intros Htask Hkey Hpat Hc1 Hr1 Hc2 Hr2. cbv zeta.
  split.
  { intros W h w0.
    apply (holds_on_all_runs_sound _ _ (process_build_task_names env second)). }
  replace (completions w + 1)%nat with (S (completions w)) in Hr1 by lia.
  pose proof (ends_with_sound _ _ _
                (process_build_task_world env first w code1 readme1 more1 more2
                   Hkey Hpat Hc1 Hr1)) as Hfirst.
  cbv zeta in Hfirst. destruct Hfirst as (_ & Hopenai & Hdone & _ & Hother1).
  set (w1 := world_after world_step (process_build_task env (VDict first)) w) in *.
  assert (Hc2' : openai w1 (completions w1) = inr (Some code2 :: more3)).
  { rewrite Hopenai, Hdone, <- Hc2. f_equal. lia. }
  assert (Hr2' : openai w1 (S (completions w1)) = inr (Some readme2 :: more4)).
  { rewrite Hopenai, Hdone, <- Hr2. f_equal. lia. }
  pose proof (ends_with_sound _ _ _
                (process_build_task_world env second w1 code2 readme2 more3 more4
                   Hkey Hpat Hc2' Hr2')) as Hsecond.
  cbv zeta in Hsecond. destruct Hsecond as (_ & _ & _ & Hrepo & Hother2).
  split; [exact Hrepo |].
  intros other Hother. rewrite Hother2 by exact Hother.
  apply Hother1. rewrite Htask. exact Hother.
Qed.

Lemma process_build_task_overwrites_witness :
  let w1 :=
    world_after world_step
      (@process_build_task demo_builtins demo_env (VDict demo_request))
      (demo_world always_500) in
  let w2 :=
    world_after world_step
      (@process_build_task demo_builtins demo_env (VDict demo_request_silent))
      w1 in
  repos w2 !! "llm-app-42" =
    Some (Repository
            [("LICENSE", MIT_LICENSE);
             ("README.md", "# App");
             ("index.html", "<html></html>");
             (".github/workflows/deploy.yml", GITHUB_WORKFLOW_YAML)]
            ["ci: add GitHub Pages deployment workflow";
             "feat: add application code";
             "docs: generate professional readme";
             "feat: add MIT license"]).
Proof.
  cbv zeta.
  apply (@process_build_task_overwrites demo_builtins demo_env demo_request
           demo_request_silent (demo_world always_500)
           "<html></html>" "# App" "<html></html>" "# App" [] [] [] []).
  - reflexivity.
  - exists "sk-demo". reflexivity.
  - exists "ghp-demo". reflexivity.
  - reflexivity.
  - reflexivity.
  - reflexivity.
  - reflexivity.
Defined.

(* ===================================================================== *)
(** ** Further properties of the request handler *)
(* ===================================================================== *)

Lemma eq_getenv_Some (v : value) (s : string) :
  eq_getenv v (Some s) = true <-> v = VStr s.
Proof.
  destruct v; cbn; try (split; [discriminate | discriminate]).
  rewrite String.eqb_eq. split; congruence.
Qed.

Lemma collect_app {A : Type} (f : entry -> option A) (tr1 tr2 : list entry) :
  collect f (tr1 ++ tr2) = (collect f tr1 ++ collect f tr2)%list.
Proof.
  induction tr1 as [| e tr1 IH]; [reflexivity |].
  cbn. destruct (f e); cbn; congruence.
Qed.

(** X1. A body that is present but not a JSON object: when it is falsy
    (false, 0, 0.0, the empty string, the empty array) the request is
    refused with 403; when it is truthy the look-up of its [get] method
    raises [AttributeError] and the handler produces no response.  In
    both cases the handler makes no call, so no thread is started. *)
Theorem handle_build_request_non_object (env : environ) (data : value)
    (W : Type) (h : handler W) (w : W) :
  data <> VNone -> (forall items, data <> VDict items) ->
  trace_of h (handle_build_request env data) w = [] /\
  world_after h (handle_build_request env data) w = w /\
  (truthy data = false ->
   result_of h (handle_build_request env data) w =
     inr (Response (VDict [("error", VStr "Unauthorized")]) 403)) /\
  (truthy data = true ->
   result_of h (handle_build_request env data) w =
     inl (Exn AttributeError
            ("'" +:+ type_name data +:+ "' object has no attribute 'get'"))).
Proof.
  intros Hnone Hdict. unfold trace_of, world_after, result_of.
  rewrite (handle_build_request_other env data W h w Hnone Hdict).
  destruct (truthy data); cbn; repeat split; intros; congruence.
Qed.

Lemma handle_build_request_non_object_witness :
  result_of world_step (handle_build_request demo_env (VList [VInt 1]))
    (demo_world always_200) =
    inl (Exn AttributeError "'list' object has no attribute 'get'") /\
  result_of world_step (handle_build_request demo_env (VStr ""))
    (demo_world always_200) =
    inr (Response (VDict [("error", VStr "Unauthorized")]) 403).
Proof.
  split.
  - apply (handle_build_request_non_object demo_env (VList [VInt 1]) World
             world_step (demo_world always_200));
      [discriminate | discriminate | reflexivity].
  - apply (handle_build_request_non_object demo_env (VStr "") World
             world_step (demo_world always_200));
      [discriminate | discriminate | reflexivity].
Defined.

(** X2. When a secret is configured, a request object is accepted exactly
    when its [secret] field is that very string (a number or any other
    value never matches), and it is refused with 403 otherwise; the other
    fields of the request are not looked at. *)
Theorem handle_build_request_strict_secret (env : environ) (s : string)
    (items : list (string * value)) (W : Type) (h : handler W) (w : W) :
  env !! "MY_APP_SECRET" = Some s ->
  (dict_get items "secret" VNone = VStr s ->
   result_of h (handle_build_request env (VDict items)) w =
     inr (Response
            (VDict [("status", VStr "Request received and is being processed.")])
            200) /\
   started (trace_of h (handle_build_request env (VDict items)) w) =
     [(Target_process_build_task, [VDict items])]) /\
  (dict_get items "secret" VNone <> VStr s ->
   result_of h (handle_build_request env (VDict items)) w =
     inr (Response (VDict [("error", VStr "Unauthorized")]) 403) /\
   started (trace_of h (handle_build_request env (VDict items)) w) = []).
Proof.
  intros Henv. unfold result_of, trace_of.
  rewrite handle_build_request_dict. unfold secret_accepted. rewrite Henv.
  split; intros Hsecret.
  - assert (Hitems : truthy (VDict items) = true).
    { destruct items; [discriminate Hsecret | reflexivity]. }
    apply eq_getenv_Some in Hsecret. rewrite Hitems, Hsecret.
    split; reflexivity.
  - destruct (eq_getenv _ _) eqn:Heq.
    + apply eq_getenv_Some in Heq. contradiction.
    + rewrite andb_false_r. split; reflexivity.
Qed.

Lemma handle_build_request_strict_secret_witness :
  result_of world_step
    (handle_build_request demo_env (VDict [("secret", VStr "S")]))
    (demo_world always_200) =
    inr (Response
           (VDict [("status", VStr "Request received and is being processed.")])
           200) /\
  result_of world_step
    (handle_build_request demo_env (VDict [("secret", VInt 5)]))
    (demo_world always_200) =
    inr (Response (VDict [("error", VStr "Unauthorized")]) 403).
Proof.
  split.
  - apply (handle_build_request_strict_secret demo_env "S"
             [("secret", VStr "S")] World world_step (demo_world always_200));
      reflexivity.
  - apply (handle_build_request_strict_secret demo_env "S"
             [("secret", VInt 5)] World world_step (demo_world always_200));
      [reflexivity | discriminate].
Defined.

(* ===================================================================== *)
(** ** Further properties of the notifier *)
(* ===================================================================== *)

Lemma holds_on_all_runs_and {A : Type} (p : prog A) :
  forall P Q : list entry -> A -> Prop,
    holds_on_all_runs P p -> holds_on_all_runs Q p ->
    holds_on_all_runs (fun tr a => P tr a /\ Q tr a) p.
Proof.
  induction p as [a | X e k IH]; intros P Q HP HQ; simpl in *.
  - auto.
  - intros x. apply (IH x _ _ (HP x) (HQ x)).
Qed.

Section NotifierOutcomes.
Context `{Builtins}.
Variables url payload : value.

Lemma loop_outcome_retry (n : nat) (delay : Z) (a : exn + Z) (line1 line2 : string)
    (tr : list entry) (r : exn + bool) :
  attempt_fails a = true ->
  loop_outcome n (delay * 2) tr r ->
  loop_outcome (S n) delay
    (Entry (Print line1) tt :: Entry (RequestsPost url payload 10) a
     :: Entry (Print line2) tt :: Entry (Sleep delay) tt :: tr) r.
Proof.
  intros Hfail. unfold loop_outcome, post_answers. cbn.
  destruct r as [err | [|]].
  - intros (failed & -> & Herr & Hall & Hlen & Hsleeps).
    exists (a :: failed). cbn. rewrite Hfail, Hall, Hsleeps.
    repeat split; auto. lia.
  - intros (failed & -> & Hall & Hlen & Hsleeps).
    exists (a :: failed). cbn. rewrite Hfail, Hall, Hsleeps.
    repeat split; auto. lia.
  - intros (Hlen & Hall & Hsleeps).
    rewrite Hfail, Hall, Hsleeps, Hlen. auto.
Qed.

Lemma notify_loop_outcomes (range : list nat) :
  forall delay : Z,
    holds_on_all_runs
      (fun tr r =>
         loop_outcome (length range) delay tr r /\
         Forall (fun timeout => timeout = 10) (timeouts tr))
      (notify_loop url payload range delay).
Proof.
  induction range as [| i range IH]; intros delay.
  - cbn. intros []. repeat split. constructor.
  - cbn [notify_loop bindE bind try_except print perform call time_sleep ret
         holds_on_all_runs].
    intros [] [err | status_code]; cbn.
    + destruct (is_RequestException err) eqn:Herr; cbn.
      * intros [] []. eapply holds_on_all_runs_weaken; [| apply IH].
        cbn beta. intros tr r [Hout Hten]. split.
        -- apply loop_outcome_retry; [exact Herr | exact Hout].
        -- unfold timeouts in *. cbn. constructor; auto.
      * split; [| repeat constructor].
        exists []. cbn. repeat split; auto. lia.
    + destruct (status_code =? 200) eqn:Hstatus; cbn.
      * intros []. apply Z.eqb_eq in Hstatus. subst status_code.
        split; [| repeat constructor].
        exists []. cbn. repeat split; auto. lia.
      * intros [] []. eapply holds_on_all_runs_weaken; [| apply IH].
        cbn beta. intros tr r [Hout Hten]. split.
        -- apply loop_outcome_retry; [cbn; rewrite Hstatus; reflexivity | exact Hout].
        -- unfold timeouts in *. cbn. constructor; auto.
Qed.

End NotifierOutcomes.

(** X4. Whatever the evaluator does, a run of [notify_evaluator] is one
    of three: it returns [True] right after the first answer 200, having
    slept 1, 2, 4, ... after each of the failed attempts before it (at
    most four); it returns [False] after five failed attempts and sleeps
    of 1, 2, 4, 8 and 16 seconds; or an exception that is not a
    transport-level error answers an attempt and comes out at once,
    without a sleep after it.  A failed attempt is a status other than
    200 or a transport-level error.  Every POST goes to the given URL
    with the given payload and a timeout of 10 seconds. *)
Theorem notify_evaluator_outcomes `{Builtins} (url payload : value) (W : Type)
    (h : handler W) (w : W) :
  let tr := trace_of h (notify_evaluator url payload) w in
  Forall (fun sent => sent = (url, payload)) (posted tr) /\
  Forall (fun timeout => timeout = 10) (timeouts tr) /\
  match result_of h (notify_evaluator url payload) w with
  | inr false =>
      length (post_answers tr) = 5%nat /\
      forallb attempt_fails (post_answers tr) = true /\
      sleeps tr = [1; 2; 4; 8; 16]
  | inr true =>
      exists failed,
        post_answers tr = (failed ++ [inr 200])%list /\
        forallb attempt_fails failed = true /\
        (length failed < 5)%nat /\
        sleeps tr = backoff 1 (length failed)
  | inl err =>
      exists failed,
        post_answers tr = (failed ++ [inl err])%list /\
        is_RequestException err = false /\
        forallb attempt_fails failed = true /\
        (length failed < 5)%nat /\
        sleeps tr = backoff 1 (length failed)
  end.
Proof.
  cbv zeta.
  pose proof (holds_on_all_runs_sound _ _
                (holds_on_all_runs_and _ _ _
                   (notify_loop_calls url payload (seq 0 max_retries) 1)
                   (notify_loop_outcomes url payload (seq 0 max_retries) 1))
                W h w) as Hrun.
  cbv beta in Hrun. destruct Hrun as ((Hcalls & _ & _) & Hout & Hten).
  split; [apply (notify_entries_only _ _ _ Hcalls) |].
  split; [exact Hten |].
  unfold notify_evaluator. exact Hout.
Qed.

Section NotifierAbort.
Context `{Builtins}.
Variables url payload : value.

Lemma notify_loop_raise (i : nat) (range : list nat) (delay : Z) (w : World)
    (err : exn) :
  evaluator w (posts w) = inl err ->
  is_RequestException err = false ->
  exists line1,
    run world_step (notify_loop url payload (i :: range) delay) w =
      (inl err, set_posts (S (posts w)) w,
       [Entry (Print line1) tt; Entry (RequestsPost url payload 10) (inl err)]).
Proof.
  intros Hans Herr.
  cbn [notify_loop bindE bind try_except print perform call time_sleep ret run
       world_step].
  rewrite Hans. cbn. rewrite Herr. cbn. eauto.
Qed.

Lemma notify_loop_first_raise (range : list nat) :
  forall (delay : Z) (w : World) (k : nat) (err : exn),
    (k < length range)%nat ->
    (forall j, (j < k)%nat -> attempt_fails (evaluator w (posts w + j)) = true) ->
    evaluator w (posts w + k) = inl err ->
    is_RequestException err = false ->
    result_of world_step (notify_loop url payload range delay) w = inl err /\
    post_count (trace_of world_step (notify_loop url payload range delay) w) = S k /\
    sleeps (trace_of world_step (notify_loop url payload range delay) w) =
      backoff delay k.
Proof.
  unfold trace_of, result_of.
  induction range as [| i range IH]; intros delay w k err Hk Hfail Hans Herr.
  - cbn in Hk. lia.
  - destruct k as [| k].
    + rewrite Nat.add_0_r in Hans.
      destruct (notify_loop_raise i range delay w err Hans Herr) as (line1 & ->).
      repeat split.
    + destruct (notify_loop_retry url payload i range delay w)
        as (line1 & line2 & Hrun).
      { specialize (Hfail 0%nat). rewrite Nat.add_0_r in Hfail.
        apply Hfail. lia. }
      rewrite Hrun. clear Hrun.
      specialize (IH (delay * 2) (set_posts (S (posts w)) w) k err).
      destruct (run world_step _ _) as [[r w2] tr].
      cbn [fst snd] in IH |- *.
      destruct IH as (Hr & Hcount & Hsleeps); auto.
      * cbn in Hk. lia.
      * intros j Hj. cbn [evaluator posts set_posts].
        replace (S (posts w) + j)%nat with (posts w + S j)%nat by lia.
        apply Hfail. lia.
      * cbn [evaluator posts set_posts].
        replace (S (posts w) + k)%nat with (posts w + S k)%nat by lia.
        exact Hans.
      * split; [exact Hr |]. unfold post_count in *. cbn.
        rewrite Hcount, Hsleeps. split; reflexivity.
Qed.

End NotifierAbort.

(** X5. When [requests.post] raises an exception that is not a
    [RequestException] on attempt k (1 <= k <= 5), the attempts before it
    having failed, [notify_evaluator] does not retry: the exception comes
    out of it after exactly k POSTs and k - 1 sleeps. *)
Theorem notify_evaluator_propagates_other_errors `{Builtins}
    (url payload : value) (w : World) (k : nat) (err : exn) :
  (1 <= k <= 5)%nat ->
  (forall j, (j < k - 1)%nat ->
     attempt_fails (evaluator w (posts w + j)) = true) ->
  evaluator w (posts w + (k - 1)) = inl err ->
  is_RequestException err = false ->
  let tr := trace_of world_step (notify_evaluator url payload) w in
  result_of world_step (notify_evaluator url payload) w = inl err /\
  post_count tr = k /\
  sleeps tr = backoff 1 (k - 1).
Proof.
  intros Hk Hfail Hans Herr. cbv zeta.
  destruct (notify_loop_first_raise url payload (seq 0 max_retries) 1 w (k - 1) err)
    as (Hr & Hcount & Hsleeps); auto.
  { rewrite length_seq. unfold max_retries. lia. }
  unfold notify_evaluator. split; [exact Hr |].
  split; [rewrite Hcount; lia | exact Hsleeps].
Qed.

Lemma notify_evaluator_propagates_other_errors_witness :
  result_of world_step
    (@notify_evaluator demo_builtins (VStr "https://eval.example/cb") (VDict []))
    (demo_world second_time_crash) = inl (Exn OtherException "boom") /\
  sleeps
    (trace_of world_step
       (@notify_evaluator demo_builtins (VStr "https://eval.example/cb")
          (VDict []))
       (demo_world second_time_crash)) = [1].
Proof.
  destruct (@notify_evaluator_propagates_other_errors demo_builtins
              (VStr "https://eval.example/cb") (VDict [])
              (demo_world second_time_crash) 2 (Exn OtherException "boom"))
    as (Hr & _ & Hsleeps).
  - lia.
  - intros [| j] Hj; [reflexivity | cbn in Hj; lia].
  - reflexivity.
  - reflexivity.
  - split; [exact Hr | exact Hsleeps].
Defined.

(* ===================================================================== *)
(** ** Further properties of the background task *)
(* ===================================================================== *)

Lemma collect_notify {A : Type} (f : entry -> option A) (url payload : value)
    (tr : list entry) :
  (forall e, notify_entry url payload e -> f e = None) ->
  Forall (notify_entry url payload) tr -> collect f tr = [].
Proof.
  intros Hf. induction 1 as [| e tr He _ IH]; [reflexivity |].
  cbn. rewrite (Hf e He). exact IH.
Qed.

(** More of what the calls of [notify_evaluator] are not. *)
Lemma notify_entries_more (url payload : value) (tr : list entry) :
  Forall (notify_entry url payload) tr ->
  clients tr = [] /\
  chat_requests tr = [] /\
  created tr = [] /\
  committed tr = [] /\
  started tr = [] /\
  List.filter is_preparation tr = [] /\
  generation_failed tr = false.
Proof.
  intros Hall.
  repeat split;
    try (apply (collect_notify _ url payload); [| exact Hall];
         intros [X ev a]; destruct ev; cbn; intros He;
         first [reflexivity | contradiction]).
  - induction Hall as [| [X ev a] tr He _ IH]; [reflexivity |].
    destruct ev; cbn in He |- *; first [exact IH | contradiction].
  - unfold generation_failed.
    induction Hall as [| [X ev a] tr He _ IH]; [reflexivity |].
    destruct ev; cbn in He |- *; first [exact IH | contradiction].
Qed.

Section MoreTask.
Context `{Builtins}.

Lemma holds_after_notify_full {A : Type} (P : list entry -> A -> Prop)
    (url payload : value) (k : exn + bool -> prog A) :
  (forall tr r,
      Forall (notify_entry url payload) tr ->
      posted tr <> [] -> (length (posted tr) <= 5)%nat ->
      Forall (fun timeout => timeout = 10) (timeouts tr) ->
      holds_on_all_runs (fun tr2 a => P (tr ++ tr2)%list a) (k r)) ->
  holds_on_all_runs P (bind (notify_evaluator url payload) k).
Proof.
  intros Hk. apply holds_on_all_runs_bind.
  eapply holds_on_all_runs_weaken;
    [| apply (holds_on_all_runs_and _ _ _
                (notify_loop_calls url payload (seq 0 max_retries) 1)
                (notify_loop_outcomes url payload (seq 0 max_retries) 1))].
  cbn beta. intros tr r ((Hall & Hposted & Hlen) & _ & Hten).
  apply Hk; [exact Hall | | | exact Hten].
  - apply Hposted. discriminate.
  - rewrite length_seq in Hlen. exact Hlen.
Qed.

#[local] Arguments String.append : simpl never.
#[local] Arguments py_str : simpl never.
#[local] Arguments notify_evaluator : simpl never.
#[local] Arguments dict_get : simpl never.
#[local] Arguments truthy : simpl never.
#[local] Arguments is_GithubException : simpl never.
#[local] Arguments code_prompt : simpl never.
#[local] Arguments readme_prompt : simpl never.

(** The readers of a record of calls applied to [tr1 ++ tr2], and to the
    calls of [notify_evaluator]. *)
Ltac split_trace :=
  cbn;
  unfold clients, chat_requests, created, committed, started, timeouts,
    github_calls, generation_failed in *;
  rewrite ?collect_app, ?List.filter_app, ?existsb_app, ?generated_app,
    ?printed_app, ?posted_app, ?deleted_app, ?repo_names_app;
  cbn;
  repeat match goal with
    | Heq : ?l = [] |- context [?l] => rewrite Heq
    | Heq : ?l = false |- context [?l] => rewrite Heq
    end;
  cbn; rewrite ?app_nil_r.

(** One step of a run: the next call and every answer to it. *)
Ltac answer_call :=
  cbn; unfold bindE;
  match goal with
  | |- forall _ : unit, _ => intros []
  | |- forall _ : exn + list (option string), _ =>
      intros [?err | [| [?content |] ?choices]]
  | |- forall _ : exn + unit, _ => intros [?err | []]
  | |- forall _ : exn + _, _ => intros [?err | ?ans]
  | |- context [if is_GithubException ?e then _ else _] =>
      destruct (is_GithubException e) eqn:?
  | |- context [if truthy ?v then _ else _] => destruct (truthy v) eqn:?
  | |- holds_on_all_runs _ (bind (bind _ _) _) =>
      apply holds_on_all_runs_assoc
  | |- holds_on_all_runs _ (bind (notify_evaluator _ _) _) =>
      apply holds_after_notify_full;
      let Hcalls := fresh "Hcalls" in
      let Hposted := fresh "Hposted" in
      let Hbound := fresh "Hbound" in
      let Hten := fresh "Hten" in
      intros ?tr [?err | ?sent] Hcalls Hposted Hbound Hten;
      let Hquiet := fresh "Hquiet" in
      let Hsent := fresh "Hsent" in
      destruct (notify_entries_only _ _ _ Hcalls)
        as (? & ? & ? & ? & ? & Hquiet & Hsent & ? & ? & ?);
      destruct (notify_entries_more _ _ _ Hcalls)
        as (? & ? & ? & ? & ? & ? & ?);
      clear Hcalls
  end.

Ltac every_run :=
  unfold process_build_task, build_and_deploy; repeat answer_call.

Lemma process_build_task_requests (env : environ) (items : list (string * value)) :
  let brief := py_str (dict_get items "brief" VNone) in
  let checks := py_str (dict_get items "checks" (VStr "")) in
  holds_on_all_runs
    (fun tr _ =>
       clients tr = [(env !! "OPENAI_API_KEY", "https://aipipe.org/openai/v1")] /\
       match chat_requests tr with
       | [] => True
       | [first] => first = ("gpt-4o", [("user", code_prompt brief checks)])
       | [first; second] =>
           first = ("gpt-4o", [("user", code_prompt brief checks)]) /\
           exists content more,
             generated tr = content :: more /\
             second =
               ("gpt-4o", [("user", readme_prompt brief (str_strip content))])
       | _ => False
       end)
    (process_build_task env (VDict items)).
Proof.
  cbv zeta. every_run.
  all: split_trace.
  all: split; [reflexivity |].
  all: first [ exact I | reflexivity
             | split; [reflexivity | do 2 eexists; split; reflexivity] ].
Qed.

Lemma process_build_task_bounds (env : environ) (items : list (string * value)) :
  holds_on_all_runs
    (fun tr _ =>
       (length (chat_requests tr) <= 2)%nat /\
       (length (deleted tr) <= 1)%nat /\
       (length (created tr) <= 1)%nat /\
       (exists rest,
           ["LICENSE"; "README.md"; "index.html"; ".github/workflows/deploy.yml"] =
             (committed tr ++ rest)%list) /\
       (length (posted tr) <= 5)%nat /\
       Forall (fun timeout => timeout = 10) (timeouts tr) /\
       started tr = [])
    (process_build_task env (VDict items)).
Proof.
  every_run.
  all: split_trace.
  all: split; [lia |]; split; [lia |]; split; [lia |].
  all: split; [eexists; reflexivity |].
  all: split; [first [assumption | cbn; lia] |].
  all: split; [first [assumption | constructor] | reflexivity].
Qed.

Lemma process_build_task_failures (env : environ) (items : list (string * value)) :
  holds_on_all_runs
    (fun tr _ =>
       (existsb went_wrong tr = true -> posted tr = []) /\
       (generation_failed tr = true -> github_calls tr = [] /\ posted tr = []))
    (process_build_task env (VDict items)).
Proof.
  every_run.
  all: split_trace.
  all: split; first [ intros _; repeat split; reflexivity
                    | let Hw := fresh in intros Hw; discriminate Hw ].
Qed.

Lemma process_build_task_after_create (env : environ)
    (items : list (string * value)) :
  holds_on_all_runs
    (fun tr _ =>
       forall repo rest,
         after_create tr = Some (repo, rest) ->
         deleted rest = [] /\ created rest = [])
    (process_build_task env (VDict items)).
Proof.
  every_run.
  all: intros repo rest Hcreate; try discriminate Hcreate.
  all: injection Hcreate as <- <-.
  all: split_trace.
  all: split; reflexivity.
Qed.

Lemma process_build_task_creation (env : environ) (items : list (string * value)) :
  holds_on_all_runs
    (fun tr _ =>
       existsb went_wrong (List.filter is_preparation tr) = false ->
       exists user,
         In (Entry (GetUser (env !! "GITHUB_PAT")) (inr user)) tr /\
         created tr =
           [(user, "llm-app-" +:+ py_str (dict_get items "task" VNone), false)])
    (process_build_task env (VDict items)).
Proof.
  every_run.
  all: split_trace.
  all: repeat match goal with
         | Hg : is_GithubException ?e = _ |- context [is_GithubException ?e] =>
             rewrite Hg
         end; cbn.
  all: let Hw := fresh in intros Hw; try discriminate Hw.
  all: eexists; split; [repeat first [left; reflexivity | right] | reflexivity].
Qed.

End MoreTask.

(** X6. The generation step constructs one client, with the API key of
    the environment and the fixed base URL, and sends at most two
    completion requests, without retrying: each is one [user] message for
    model [gpt-4o]; the first carries the code prompt built from [brief]
    and [checks] (an absent [checks] is the empty text), the second the
    documentation prompt built from [brief] and the stripped text of the
    first completion. *)
Theorem process_build_task_generation_requests `{Builtins} (env : environ)
    (items : list (string * value)) (W : Type) (h : handler W) (w : W) :
  let tr := trace_of h (process_build_task env (VDict items)) w in
  let brief := py_str (dict_get items "brief" VNone) in
  let checks := py_str (dict_get items "checks" (VStr "")) in
  clients tr = [(env !! "OPENAI_API_KEY", "https://aipipe.org/openai/v1")] /\
  match chat_requests tr with
  | [] => True
  | [first] => first = ("gpt-4o", [("user", code_prompt brief checks)])
  | [first; second] =>
      first = ("gpt-4o", [("user", code_prompt brief checks)]) /\
      exists content more,
        generated tr = content :: more /\
        second = ("gpt-4o", [("user", readme_prompt brief (str_strip content))])
  | _ => False
  end.
Proof.
  cbv zeta.
  apply (holds_on_all_runs_sound _ _ (process_build_task_requests env items)).
Qed.

(** X7. Against any outside world one run of the task requests at most
    two completions, at most one deletion and at most one creation of a
    repository, commits a prefix of the four paths [LICENSE],
    [README.md], [index.html], [.github/workflows/deploy.yml] in that
    order, makes at most five POSTs, each with a timeout of 10 seconds,
    and starts no thread. *)
Theorem process_build_task_call_bounds `{Builtins} (env : environ)
    (items : list (string * value)) (W : Type) (h : handler W) (w : W) :
  let tr := trace_of h (process_build_task env (VDict items)) w in
  (length (chat_requests tr) <= 2)%nat /\
  (length (deleted tr) <= 1)%nat /\
  (length (created tr) <= 1)%nat /\
  (exists rest,
      ["LICENSE"; "README.md"; "index.html"; ".github/workflows/deploy.yml"] =
        (committed tr ++ rest)%list) /\
  (length (posted tr) <= 5)%nat /\
  Forall (fun timeout => timeout = 10) (timeouts tr) /\
  started tr = [].
Proof.
  cbv zeta.
  apply (holds_on_all_runs_sound _ _ (process_build_task_bounds env items)).
Qed.

(** X8. A failed task sends nothing: when any call of generation or
    publication goes wrong (it raises, other than a [GithubException]
    while looking up or deleting the old repository, or a completion has
    no usable first choice), nothing is POSTed to the evaluator. *)
Theorem process_build_task_failure_sends_nothing `{Builtins} (env : environ)
    (items : list (string * value)) (W : Type) (h : handler W) (w : W) :
  let tr := trace_of h (process_build_task env (VDict items)) w in
  existsb went_wrong tr = true -> posted tr = [].
Proof.
  cbv zeta.
  apply (holds_on_all_runs_sound _ _ (process_build_task_failures env items)).
Qed.

Lemma process_build_task_failure_sends_nothing_witness :
  let tr :=
    trace_of world_step
      (@process_build_task demo_builtins (delete "GITHUB_PAT" demo_env)
         (VDict demo_request))
      (demo_world always_200) in
  existsb went_wrong tr = true /\ length (generated tr) = 2%nat /\ posted tr = [].
Proof.
  cbv zeta. split; [vm_compute; reflexivity |].
  split; [vm_compute; reflexivity |].
  apply (@process_build_task_failure_sends_nothing demo_builtins
           (delete "GITHUB_PAT" demo_env) demo_request World world_step
           (demo_world always_200)).
  vm_compute. reflexivity.
Defined.

(** X9. When generation fails (the client construction or a completion
    request raises, or a completion has no choice or a first choice
    without content), the task makes no call to the hosting library at
    all, so an existing repository of the task is not deleted, and it
    POSTs nothing. *)
Theorem process_build_task_generation_failure `{Builtins} (env : environ)
    (items : list (string * value)) (W : Type) (h : handler W) (w : W) :
  let tr := trace_of h (process_build_task env (VDict items)) w in
  generation_failed tr = true -> github_calls tr = [] /\ posted tr = [].
Proof.
  cbv zeta.
  apply (holds_on_all_runs_sound _ _ (process_build_task_failures env items)).
Qed.

Lemma process_build_task_generation_failure_witness :
  let tr :=
    trace_of world_step
      (@process_build_task demo_builtins demo_env (VDict demo_request))
      demo_world_no_choice in
  generation_failed tr = true /\
  github_calls tr = [] /\
  In "❌ An error occurred: list index out of range" (printed tr).
Proof.
  cbv zeta. split; [vm_compute; reflexivity |].
  split; [| vm_compute; auto 10].
  apply (@process_build_task_generation_failure demo_builtins demo_env
           demo_request World world_step demo_world_no_choice).
  vm_compute. reflexivity.
Defined.

(** X10. No rollback: once the repository is created the task requests
    neither a deletion nor another creation, also when a commit or the
    branch read fails afterwards; a partially filled repository is left
    as it is. *)
Theorem process_build_task_no_rollback `{Builtins} (env : environ)
    (items : list (string * value)) (W : Type) (h : handler W) (w : W)
    (repo : gh_repo) (rest : list entry) :
  after_create (trace_of h (process_build_task env (VDict items)) w) =
    Some (repo, rest) ->
  deleted rest = [] /\ created rest = [].
Proof.
  apply (holds_on_all_runs_sound _ _ (process_build_task_after_create env items)).
Qed.

Lemma process_build_task_no_rollback_witness :
  exists repo rest,
    after_create
      (trace_of world_step
         (@process_build_task demo_builtins demo_env (VDict demo_request))
         (demo_world always_200)) = Some (repo, rest) /\
    deleted rest = [] /\ created rest = [].
Proof.
  eexists. eexists. split; [vm_compute; reflexivity |].
  eapply (@process_build_task_no_rollback demo_builtins demo_env demo_request
            World world_step (demo_world always_200)).
  vm_compute. reflexivity.
Defined.

(** X11. When generation succeeds and the account is read, and the
    look-up and the deletion of the old repository raise nothing but a
    [GithubException] (repository not found, deletion refused), the task
    goes on and requests exactly one repository: public, owned by the
    account, named [llm-app-<task>]. *)
Theorem process_build_task_creates_public_repo `{Builtins} (env : environ)
    (items : list (string * value)) (W : Type) (h : handler W) (w : W) :
  let tr := trace_of h (process_build_task env (VDict items)) w in
  existsb went_wrong (List.filter is_preparation tr) = false ->
  exists user,
    In (Entry (GetUser (env !! "GITHUB_PAT")) (inr user)) tr /\
    created tr =
      [(user, "llm-app-" +:+ py_str (dict_get items "task" VNone), false)].
Proof.
  cbv zeta.
  apply (holds_on_all_runs_sound _ _ (process_build_task_creation env items)).
Qed.

Lemma process_build_task_creates_public_repo_witness :
  let tr :=
    trace_of world_step
      (@process_build_task demo_builtins demo_env (VDict demo_request))
      (demo_world always_200) in
  existsb went_wrong (List.filter is_preparation tr) = false /\
  exists user, created tr = [(user, "llm-app-42", false)].
Proof.
  cbv zeta. split; [vm_compute; reflexivity |].
  destruct (@process_build_task_creates_public_repo demo_builtins demo_env
              demo_request World world_step (demo_world always_200))
    as (user & _ & Hcreated); [vm_compute; reflexivity |].
  exists user. exact Hcreated.
Defined.

(** X12. A request without a [task] field (or with a null one) is not
    refused: every repository name the task looks up or creates is then
    [llm-app-None], the same for all such requests. *)
Theorem process_build_task_missing_task `{Builtins} (env : environ)
    (items : list (string * value)) (W : Type) (h : handler W) (w : W) :
  dict_get items "task" VNone = VNone ->
  Forall (fun requested => requested = "llm-app-None")
    (repo_names (trace_of h (process_build_task env (VDict items)) w)).
Proof.
  intros Htask.
  destruct (holds_on_all_runs_sound _ _ (process_build_task_names env items) W h w)
    as [Hnames _].
  rewrite Htask in Hnames. exact Hnames.
Qed.

Lemma process_build_task_missing_task_witness :
  repo_names
    (trace_of world_step
       (@process_build_task demo_builtins demo_env
          (VDict [("brief", VStr "a todo app")]))
       (demo_world always_200)) = ["llm-app-None"; "llm-app-None"] /\
  Forall (fun requested => requested = "llm-app-None")
    (repo_names
       (trace_of world_step
          (@process_build_task demo_builtins demo_env
             (VDict [("brief", VStr "a todo app")]))
          (demo_world always_200))).
Proof.
  split; [vm_compute; reflexivity |].
  apply (@process_build_task_missing_task demo_builtins demo_env
           [("brief", VStr "a todo app")] World world_step (demo_world always_200)).
  reflexivity.
Defined.

(** X13. Called with anything but a dict, [process_build_task] prints the
    rule line and then raises [AttributeError] from [data.get('task')],
    which stands before the [try]: this is the one error it does not
    catch.  It makes no other call. *)
Theorem process_build_task_non_object `{Builtins} (env : environ) (data : value)
    (W : Type) (h : handler W) (w : W) :
  (forall items, data <> VDict items) ->
  result_of h (process_build_task env data) w =
    inl (Exn AttributeError
           ("'" +:+ type_name data +:+ "' object has no attribute 'get'")) /\
  trace_of h (process_build_task env data) w = [Entry (Print rule) tt].
Proof.
  intros Hdict. unfold result_of, trace_of, process_build_task.
  destruct data as [| b | z | f | s | l | items];
    try (exfalso; eapply Hdict; reflexivity);
    cbn; destruct (h _ _ w) as [[] w1]; split; reflexivity.
Qed.

Lemma process_build_task_non_object_witness :
  result_of world_step (@process_build_task demo_builtins demo_env VNone)
    (demo_world always_200) =
    inl (Exn AttributeError "'NoneType' object has no attribute 'get'").
Proof.
  apply (@process_build_task_non_object demo_builtins demo_env VNone World
           world_step (demo_world always_200)).
  discriminate.
Defined.


